(** * Sales Analyzer: the aggregation and daily-series engine

    A shallow embedding of the computational core of the application
    component (its version with the daily breakdown): [getMonthFromDate],
    [getAllUniqueMonths],
    [getFilteredDailyData], [getFilteredTotals] and [calculateTotals],
    together with the parts of the JavaScript runtime they call.

    Conventions.
    - A JavaScript string is a [string]: the bytes of its UTF-8 text.  The
      operations used here ([split], [replace], [trim], [toLowerCase],
      [parseInt], [parseFloat], [===]) are modelled on that representation.
    - A JavaScript [number] holding an amount is a binary64 value, Rocq's
      primitive [float]; [parseFloat] rounds the decimal literal it reads to
      the nearest binary64, ties to even, like the engines do.
    - A value that may be [undefined] is an [option]; [NaN] results of
      integer-valued computations ([parseInt], [getTime]) are [None].
    - [TypeError]s are explicit: code that can throw lives in [Completion]. *)

From Stdlib Require Import ZArith Floats String Ascii List Lia Sorted Permutation.
From stdpp Require Import base option list gmap strings.

Local Open Scope string_scope.
Local Open Scope Z_scope.
Local Open Scope list_scope.

(** ** The JavaScript runtime *)

Module JS.

(** *** Completions: a value, or a thrown error *)

Inductive Completion (A : Type) : Type :=
| Normal (a : A)
| Throw (e : string).
Arguments Normal {A} a.
Arguments Throw {A} e.

Definition bind {A B} (m : Completion A) (k : A -> Completion B) : Completion B :=
  match m with
  | Normal a => k a
  | Throw e => Throw e
  end.

Definition TypeError : string := "TypeError".

(** [Array.prototype.forEach] with a callback that updates the enclosing
    function's local variables [S]: left to right, stopping at a throw. *)
Fixpoint forEach {A S} (f : S -> A -> Completion S) (l : list A) (s : S) : Completion S :=
  match l with
  | [] => Normal s
  | x :: l' => bind (f s x) (forEach f l')
  end.

(** *** Strings *)

Definition code (c : ascii) : N := N_of_ascii c.

(** [WhiteSpace] and [LineTerminator] code points, in UTF-8: TAB, LF, VT,
    FF, CR, SP; U+00A0; U+1680, U+2000..U+200A, U+2028, U+2029, U+202F,
    U+205F, U+3000, U+FEFF. *)
Definition isWhiteSpace1 (c : ascii) : bool :=
  let n := code c in ((9 <=? n) && (n <=? 13) || (n =? 32))%N.

Definition isWhiteSpace2 (c1 c2 : ascii) : bool :=
  ((code c1 =? 194) && (code c2 =? 160))%N.

Definition isWhiteSpace3 (c1 c2 c3 : ascii) : bool :=
  let a := code c1 in
  let b := code c2 in
  let c := code c3 in
  ((a =? 225) && (b =? 154) && (c =? 128)
   || (a =? 226) && (b =? 128)
      && ((128 <=? c) && (c <=? 138) || (c =? 168) || (c =? 169) || (c =? 175))
   || (a =? 226) && (b =? 129) && (c =? 159)
   || (a =? 227) && (b =? 128) && (c =? 128)
   || (a =? 239) && (b =? 187) && (c =? 191))%N.

Fixpoint trimStart (s : string) : string :=
  match s with
  | String c1 s1 =>
      if isWhiteSpace1 c1 then trimStart s1
      else match s1 with
           | String c2 s2 =>
               if isWhiteSpace2 c1 c2 then trimStart s2
               else match s2 with
                    | String c3 s3 =>
                        if isWhiteSpace3 c1 c2 c3 then trimStart s3 else s
                    | EmptyString => s
                    end
           | EmptyString => s
           end
  | EmptyString => EmptyString
  end.

(** Everything from the first position after which only white space
    follows is dropped. *)
Fixpoint trimEnd (s : string) : string :=
  match s with
  | EmptyString => EmptyString
  | String c s' =>
      if String.eqb (trimStart s) "" then EmptyString else String c (trimEnd s')
  end.

Definition trim (s : string) : string := trimEnd (trimStart s).

(** [toLowerCase] on the ASCII letters; other code points are kept.  The
    engine lowercases those too, but the only use below compares the
    result with the ASCII literal ['ashley regis'], and no code point
    outside ASCII lowercases to one of its letters (U+212A goes to [k],
    U+0130 to [i] followed by U+0307), so the comparison is the same. *)
Definition lowerChar (c : ascii) : ascii :=
  if ((65 <=? code c) && (code c <=? 90))%N then ascii_of_N (code c + 32) else c.

Fixpoint toLowerCase (s : string) : string :=
  match s with
  | EmptyString => EmptyString
  | String c s' => String (lowerChar c) (toLowerCase s')
  end.

(** [s.replace(search, by)] with a string pattern: only the first
    occurrence is replaced. *)
Definition replace (search by_ s : string) : string :=
  match String.index 0 search s with
  | Some i =>
      String.append (String.substring 0 i s)
        (String.append by_
           (String.substring (i + String.length search)
              (String.length s - (i + String.length search)) s))
  | None => s
  end.

(** [s.split(sep)] for a one-character separator; never empty. *)
Fixpoint split (sep : ascii) (s : string) : list string :=
  match s with
  | EmptyString => [EmptyString]
  | String c s' =>
      if Ascii.eqb c sep then EmptyString :: split sep s'
      else match split sep s' with
           | p :: ps => String c p :: ps
           | [] => [String c EmptyString]
           end
  end.

(** Truthiness of a string, and of a possibly-undefined string. *)
Definition nonEmpty (s : string) : bool := negb (String.eqb s "").

Definition truthy (v : option string) : bool :=
  match v with
  | Some s => nonEmpty s
  | None => false
  end.

(** [a || b] *)
Definition orElse (a b : option string) : option string :=
  if truthy a then a else b.

(** *** Numbers *)

Definition isDigit (c : ascii) : bool := ((48 <=? code c) && (code c <=? 57))%N.

Fixpoint spanDigits (s : string) : string * string :=
  match s with
  | String c s' =>
      if isDigit c then let '(ds, r) := spanDigits s' in (String c ds, r)
      else (EmptyString, s)
  | EmptyString => (EmptyString, EmptyString)
  end.

Fixpoint digitsValue_from (acc : Z) (ds : string) : Z :=
  match ds with
  | String c ds' => digitsValue_from (10 * acc + (Z.of_N (code c) - 48)) ds'
  | EmptyString => acc
  end.

Definition digitsValue : string -> Z := digitsValue_from 0.

Definition readSign (s : string) : bool * string :=
  match s with
  | String "+" r => (false, r)
  | String "-" r => (true, r)
  | _ => (false, s)
  end.

(** [parseInt(s, 10)]: leading white space, a sign, then the longest run
    of digits; [None] is [NaN].  The integer is kept exact: the callers
    only compare [parseInt(s) - 1] with 0 and 11, and rounding to binary64
    is monotone and exact on that range. *)
Definition parseInt (input : string) : option Z :=
  let '(neg, s) := readSign (trimStart input) in
  let '(ds, _) := spanDigits s in
  if String.eqb ds "" then None
  else Some (if neg then - digitsValue ds else digitsValue ds).

(** The binary64 nearest to [(-1)^neg * m * 10^e10], ties to even. *)
Definition roundDecimal (neg : bool) (m e10 : Z) : float :=
  match m with
  | Zpos p =>
      SF2Prim
        (if 0 <=? e10
         then binary_normalize prec emax
                (if neg then - (m * 10 ^ e10) else m * 10 ^ e10) 0 false
         else SFdiv prec emax (S754_finite neg p 0)
                (S754_finite false (Z.to_pos (10 ^ (- e10))) 0))
  | _ => if neg then PrimFloat.neg_zero else PrimFloat.zero
  end.

(** [parseFloat(s)]: leading white space, then the longest prefix that is
    a [StrDecimalLiteral]; [NaN] when there is none. *)
Definition parseFloat (input : string) : float :=
  let '(neg, s) := readSign (trimStart input) in
  if String.prefix "Infinity" s
  then (if neg then PrimFloat.neg_infinity else PrimFloat.infinity)
  else
    let '(ip, r1) := spanDigits s in
    let '(fp, r2) := match r1 with
                     | String "." r => spanDigits r
                     | _ => (EmptyString, r1)
                     end in
    if String.eqb (String.append ip fp) "" then PrimFloat.nan
    else
      let e := match r2 with
               | String c r =>
                   if (Ascii.eqb c "e" || Ascii.eqb c "E")%bool then
                     let '(eneg, r') := readSign r in
                     let '(ed, _) := spanDigits r' in
                     if String.eqb ed "" then 0
                     else if eneg then - digitsValue ed else digitsValue ed
                   else 0
               | EmptyString => 0
               end in
      roundDecimal neg (digitsValue (String.append ip fp)) (e - Z.of_nat (String.length fp)).

Definition isNaN (x : float) : bool := PrimFloat.is_nan x.

(** [a - b] on time values, which are integers or [NaN]. *)
Definition sub (a b : option Z) : option Z :=
  match a, b with
  | Some x, Some y => Some (x - y)
  | _, _ => None
  end.

(** [Math.max(x, ...xs)]: [NaN] as soon as one argument is. *)
Fixpoint Math_max (x : option Z) (xs : list (option Z)) : option Z :=
  match xs with
  | [] => x
  | y :: ys =>
      match x, Math_max y ys with
      | Some a, Some b => Some (Z.max a b)
      | _, _ => None
      end
  end.

(** *** [Array.prototype.sort]

    [comparefn] returns a number; [NaN] counts as [+0].  The sort is
    stable, so with a consistent comparator every engine returns the array
    that inserting the elements from the right, each before the first
    element it does not follow, returns.  With an inconsistent comparator
    the order depends on the engine; the arrays used for that case below
    are such that every comparison an insertion sort, a run-detecting merge
    sort or a halving merge sort makes is a tie, so the array comes back
    unchanged, which is what [sort] returns as well. *)
Definition SortCompare {A} (comparefn : A -> A -> option Z) (x y : A) : Z :=
  match comparefn x y with
  | Some v => v
  | None => 0
  end.

Fixpoint insertSorted {A} (comparefn : A -> A -> option Z) (x : A) (l : list A) : list A :=
  match l with
  | [] => [x]
  | y :: l' =>
      if SortCompare comparefn x y <=? 0 then x :: l
      else y :: insertSorted comparefn x l'
  end.

Definition sort {A} (comparefn : A -> A -> option Z) (l : list A) : list A :=
  foldr (insertSorted comparefn) [] l.

(** *** [Map<string, V>]: entries in insertion order *)

Module Map.
Definition t (V : Type) : Type := list (string * V).

Fixpoint get {V} (k : string) (m : t V) : option V :=
  match m with
  | [] => None
  | (k', v) :: m' => if String.eqb k k' then Some v else get k m'
  end.

Definition has {V} (k : string) (m : t V) : bool :=
  match get k m with
  | Some _ => true
  | None => false
  end.

(** A new key goes last; an existing key keeps its place. *)
Fixpoint set {V} (k : string) (v : V) (m : t V) : t V :=
  match m with
  | [] => [(k, v)]
  | (k', v') :: m' =>
      if String.eqb k k' then (k, v) :: m' else (k', v') :: set k v m'
  end.
End Map.

(** *** [Set<string>]: elements in insertion order *)

Module Set_.
Definition add (x : string) (s : list string) : list string :=
  if existsb (String.eqb x) s then s else s ++ [x].
End Set_.

(** *** [Date]

    [new Date(s)] for a string [s] is left to the engine by the language
    specification, apart from the ISO format.  The application code is
    therefore taken over an arbitrary parser: [None] is Invalid Date,
    otherwise the time value in milliseconds and the local month
    (0 for January). *)
Record Date : Type := { getTime : Z; getMonth : nat }.

End JS.


(** ** The application's data *)

Inductive Language : Type := en | es.

Record DailyProfit : Type :=
  { date : string; retail : float; club : float; total : float }.

Record SalesData : Type :=
  { retailTotal : float;
    clubTotal : float;
    fileName : string;
    dailyData : list DailyProfit }.

(** A decoded row, [Record<string, string>]. *)
Abbreviation Row := (gmap string string).

(** The value type of [dailyMap], [{ retail: number; club: number }]. *)
Module DayData.
Record t : Type := mk { retail : float; club : float }.
End DayData.

(** The local variables of [calculateTotals] that its row callback updates. *)
Module Locals.
Record t : Type :=
  mk { retailTotal : float; clubTotal : float; dailyMap : JS.Map.t DayData.t }.
End Locals.

(** What [getFilteredTotals] returns. *)
Module Totals.
Record t : Type := mk { retailTotal : float; clubTotal : float }.
End Totals.

(** What [calculateTotals] hands to [setSalesData], [setAvailableMonths]
    and [setSelectedMonth]. *)
Record Outcome : Type :=
  { salesData : SalesData;
    availableMonths : list string;
    selectedMonth : string }.

(** ** [calculateTotals]: the row callback *)

Definition isRetailSale (typeString : string) : bool :=
  String.eqb typeString "Retail Sale" || String.eqb typeString "Venta al menudeo".

Definition isClubVisit (typeString : string) : bool :=
  String.eqb typeString "Club Visit/Sale" || String.eqb typeString "Visita al Club / Venta".

(** [customerName && customerName.toString().trim().toLowerCase() === 'ashley regis'] *)
Definition isAshleyRegis (customerName : option string) : bool :=
  match customerName with
  | Some c => JS.nonEmpty c && String.eqb (JS.toLowerCase (JS.trim c)) "ashley regis"
  | None => false
  end.

(** [parseFloat(profitString.toString().replace('$', '').replace(',', ''))] *)
Definition parseProfit (profitString : string) : float :=
  JS.parseFloat (JS.replace "," "" (JS.replace "$" "" profitString)).

(** The two [+=] on the running totals. *)
Definition addToTotals (typeString : string) (profit : float) (st : Locals.t) : Locals.t :=
  if isRetailSale typeString then
    Locals.mk (Locals.retailTotal st + profit)%float (Locals.clubTotal st) (Locals.dailyMap st)
  else if isClubVisit typeString then
    Locals.mk (Locals.retailTotal st) (Locals.clubTotal st + profit)%float (Locals.dailyMap st)
  else st.

(** The two [+=] on the day's entry. *)
Definition addToDay (typeString : string) (profit : float) (dayData : DayData.t) : DayData.t :=
  if isRetailSale typeString then
    DayData.mk (DayData.retail dayData + profit)%float (DayData.club dayData)
  else if isClubVisit typeString then
    DayData.mk (DayData.retail dayData) (DayData.club dayData + profit)%float
  else dayData.

(** The daily grouping: [has], [set] when new, [get]!, then the update of
    the entry the map holds.  [dayData] aliases the stored object, so the
    update is a write at the same key; reading a field of [undefined] would
    be a [TypeError]. *)
Definition groupByDate (dateKey typeString : string) (profit : float)
    (dailyMap : JS.Map.t DayData.t) : JS.Completion (JS.Map.t DayData.t) :=
  let dailyMap1 :=
    if negb (JS.Map.has dateKey dailyMap)
    then JS.Map.set dateKey (DayData.mk 0 0) dailyMap
    else dailyMap in
  match JS.Map.get dateKey dailyMap1 with
  | Some dayData =>
      JS.Normal (JS.Map.set dateKey (addToDay typeString profit dayData) dailyMap1)
  | None => JS.Throw JS.TypeError
  end.

(** The body of [data.forEach((row) => ...)]. *)
Definition calculateTotals_row (st : Locals.t) (row : Row) : JS.Completion Locals.t :=
  let receiptType := JS.orElse (row !! "Receipt Type") (row !! "Tipo de Recibo") in
  let profitString := JS.orElse (row !! "Profit") (row !! "Ganancia") in
  let dateCreated := JS.orElse (row !! "Date Created") (row !! "Fecha de creación") in
  let customerName := JS.orElse (row !! "Customer Name") (row !! "Nombre del Cliente") in
  if isAshleyRegis customerName then JS.Normal st
  else
    match receiptType, profitString with
    | Some typeString, Some profitText =>
        if JS.nonEmpty typeString && JS.nonEmpty profitText then
          let profit := parseProfit profitText in
          if negb (JS.isNaN profit) then
            let st1 := addToTotals typeString profit st in
            match dateCreated with
            | Some dateKey =>
                if JS.nonEmpty dateKey then
                  JS.bind (groupByDate dateKey typeString profit (Locals.dailyMap st1))
                    (fun dailyMap' =>
                       JS.Normal (Locals.mk (Locals.retailTotal st1) (Locals.clubTotal st1) dailyMap'))
                else JS.Normal st1
            | None => JS.Normal st1
            end
          else JS.Normal st
        else JS.Normal st
    | _, _ => JS.Normal st
    end.

(** ** The filters and the array they are given

    [salesData.dailyData] is one array object, handed to both filters at
    every render.  Arrays live in a heap here: [filter] allocates its
    result, ['ALL'] returns the array it was given (the same object), and
    [reduce] only reads. *)

Module Heap.
Definition ref : Type := nat.
Definition t : Type := list (list DailyProfit).
Definition read (r : ref) (h : t) : option (list DailyProfit) := nth_error h r.
Definition alloc (a : list DailyProfit) (h : t) : ref * t := (length h, h ++ [a]).
End Heap.

(** ** The month helpers, the filters and [calculateTotals] *)

Section Engine.

(** The component's [language] state and the engine's [Date] parser. *)
Variable language : Language.
Variable Date_parse : string -> option JS.Date.

Definition monthNames : list string :=
  match language with
  | es => ["Enero"; "Febrero"; "Marzo"; "Abril"; "Mayo"; "Junio"; "Julio";
           "Agosto"; "Septiembre"; "Octubre"; "Noviembre"; "Diciembre"]
  | en => ["January"; "February"; "March"; "April"; "May"; "June"; "July";
           "August"; "September"; "October"; "November"; "December"]
  end.

(** [new Date(s).getTime()] *)
Definition timeOf (s : string) : option Z := JS.getTime <$> Date_parse s.

Definition getMonthFromDate (dateString : string) : string :=
  if negb (JS.nonEmpty dateString) then ""
  else
    let dateParts := JS.split "/" dateString in
    if (length dateParts <? 3)%nat then
      match Date_parse dateString with
      | None => ""
      | Some d => nth (JS.getMonth d) monthNames ""   (* getMonth() is 0..11 *)
      end
    else
      match JS.parseInt (hd "" dateParts) with
      | None => ""
      | Some n =>
          let monthIndex := n - 1 in
          if (monthIndex <? 0) || (11 <? monthIndex) then ""
          else nth (Z.to_nat monthIndex) monthNames ""
      end.

(** [latestA] / [latestB] in the comparator of [getAllUniqueMonths]. *)
Definition latestOf (dailyData : list DailyProfit) (month : string) : option Z :=
  let dates :=
    map (fun d => timeOf (date d))
      (List.filter (fun d => String.eqb (getMonthFromDate (date d)) month) dailyData) in
  match dates with
  | [] => Some 0
  | t :: ts => JS.Math_max t ts
  end.

Definition collectMonths (dailyData : list DailyProfit) : list string :=
  fold_left
    (fun monthSet day =>
       let month := getMonthFromDate (date day) in
       if JS.nonEmpty month then JS.Set_.add month monthSet else monthSet)
    dailyData [].

Definition getAllUniqueMonths (dailyData : list DailyProfit) : list string :=
  if (length dailyData =? 0)%nat then []
  else
    JS.sort (fun a b => JS.sub (latestOf dailyData b) (latestOf dailyData a))
      (collectMonths dailyData).

Definition getFilteredDailyData (dailyData : list DailyProfit) (month : string)
    : list DailyProfit :=
  if String.eqb month "ALL" then dailyData
  else List.filter (fun day => String.eqb (getMonthFromDate (date day)) month) dailyData.

Definition getFilteredTotals (dailyData : list DailyProfit) (month : string) : Totals.t :=
  let filtered := getFilteredDailyData dailyData month in
  Totals.mk
    (fold_left (fun sum day => (sum + retail day)%float) filtered 0%float)
    (fold_left (fun sum day => (sum + club day)%float) filtered 0%float).

(** [Array.from(dailyMap.entries()).map(...)] *)
Definition toDailyProfit (entry : string * DayData.t) : DailyProfit :=
  let '(date, values) := entry in
  {| date := date;
     retail := DayData.retail values;
     club := DayData.club values;
     total := (DayData.retail values + DayData.club values)%float |}.

Definition byDate (a b : DailyProfit) : option Z :=
  JS.sub (timeOf (date a)) (timeOf (date b)).

Definition calculateTotals (data : list Row) (fileName : string) : JS.Completion Outcome :=
  JS.bind (JS.forEach calculateTotals_row data (Locals.mk 0 0 []))
    (fun st =>
       let dailyData := JS.sort byDate (map toDailyProfit (Locals.dailyMap st)) in
       let months := getAllUniqueMonths dailyData in
       let selected :=
         match months with
         | m0 :: _ :: _ => m0
         | [m0] => m0
         | [] => "ALL"
         end in
       JS.Normal
         {| salesData :=
              {| retailTotal := Locals.retailTotal st;
                 clubTotal := Locals.clubTotal st;
                 fileName := fileName;
                 dailyData := dailyData |};
            availableMonths := months;
            selectedMonth := selected |}).

(** The filters on the heap. *)
Definition getFilteredDailyData_at (dailyData : Heap.ref) (month : string) (h : Heap.t)
    : JS.Completion (Heap.ref * Heap.t) :=
  if String.eqb month "ALL" then JS.Normal (dailyData, h)
  else
    match Heap.read dailyData h with
    | Some a =>
        JS.Normal
          (Heap.alloc
             (List.filter
                (fun day => String.eqb (getMonthFromDate (date day)) month)
                a)
             h)
    | None => JS.Throw JS.TypeError
    end.

Definition getFilteredTotals_at (dailyData : Heap.ref) (month : string) (h : Heap.t)
    : JS.Completion (Totals.t * Heap.t) :=
  JS.bind (getFilteredDailyData_at dailyData month h)
    (fun '(filtered, h1) =>
       match Heap.read filtered h1 with
       | Some a =>
           JS.Normal
             (Totals.mk
                (fold_left (fun sum day => (sum + retail day)%float) a 0%float)
                (fold_left (fun sum day => (sum + club day)%float) a 0%float),
              h1)
       | None => JS.Throw JS.TypeError
       end).

(** One render per selected month: the totals, then the rows of the table. *)
Fixpoint renders (dailyData : Heap.ref) (months : list string) (h : Heap.t)
    : JS.Completion (list (Totals.t * list DailyProfit) * Heap.t) :=
  match months with
  | [] => JS.Normal ([], h)
  | month :: months' =>
      JS.bind (getFilteredTotals_at dailyData month h)
        (fun '(totals, h1) =>
           JS.bind (getFilteredDailyData_at dailyData month h1)
             (fun '(rows, h2) =>
                match Heap.read rows h2 with
                | Some a =>
                    JS.bind (renders dailyData months' h2)
                      (fun '(rest, h3) => JS.Normal ((totals, a) :: rest, h3))
                | None => JS.Throw JS.TypeError
                end))
  end.

End Engine.

(** ** A [Date] parser for the export's own date shape

    [M/D/YYYY] with one or two digits for month and day and four for the
    year, as engines read it: month 1..12, day 1..31 (a day past the end of
    its month runs into the next one), local midnight.  The local zone is
    taken to be UTC.  Every other string is Invalid Date in this instance,
    which is used for the examples only: the theorems are about an arbitrary
    parser. *)

Module Calendar.

Definition daysFromCivil (y m d : Z) : Z :=
  let y' := if m <=? 2 then y - 1 else y in
  let era := y' / 400 in
  let yoe := y' - era * 400 in
  let doy := (153 * (if 2 <? m then m - 3 else m + 9) + 2) / 5 + d - 1 in
  let doe := yoe * 365 + yoe / 4 - yoe / 100 + doy in
  era * 146097 + doe - 719468.

Definition monthFromDays (days : Z) : nat :=
  let z := days + 719468 in
  let era := z / 146097 in
  let doe := z - era * 146097 in
  let yoe := (doe - doe / 1460 + doe / 36524 - doe / 146096) / 365 in
  let doy := doe - (365 * yoe + yoe / 4 - yoe / 100) in
  let mp := (5 * doy + 2) / 153 in
  Z.to_nat (if mp <? 10 then mp + 2 else mp - 10).

Definition numeral (lo hi : nat) (s : string) : option Z :=
  let '(ds, rest) := JS.spanDigits s in
  if String.eqb rest "" && (lo <=? String.length ds)%nat && (String.length ds <=? hi)%nat
  then Some (JS.digitsValue ds) else None.

Definition Date_parse (s : string) : option JS.Date :=
  match JS.split "/" s with
  | [ms; ds; ys] =>
      match numeral 1 2 ms, numeral 1 2 ds, numeral 4 4 ys with
      | Some m, Some d, Some y =>
          if (1 <=? m) && (m <=? 12) && (1 <=? d) && (d <=? 31) then
            let days := daysFromCivil y m 1 + d - 1 in
            Some {| JS.getTime := days * 86400000; JS.getMonth := monthFromDays days |}
          else None
      | _, _, _ => None
      end
  | _ => None
  end.

End Calendar.

(** ** The specification's view of a row

    Section 4.1 of the specification describes the row callback as a
    normalizer, [normalize(row) -> TransactionRecord | Skip], followed by an
    accumulation step.  [normalize] and [accumulate] follow that
    description; [calculateTotals_row_normalize] below shows that the code
    computes exactly their composition. *)

Inductive Kind : Type := Retail | Club | Unrecognized.

Record TransactionRecord : Type :=
  { kind : Kind; amount : float; dateKey : string }.

Definition classify (typeString : string) : Kind :=
  if isRetailSale typeString then Retail
  else if isClubVisit typeString then Club
  else Unrecognized.

(** The four logical fields of a row, each under its English header or,
    failing that, its Spanish one. *)
Definition receiptTypeOf (row : Row) : option string :=
  JS.orElse (row !! "Receipt Type") (row !! "Tipo de Recibo").
Definition profitStringOf (row : Row) : option string :=
  JS.orElse (row !! "Profit") (row !! "Ganancia").
Definition dateCreatedOf (row : Row) : option string :=
  JS.orElse (row !! "Date Created") (row !! "Fecha de creación").
Definition customerNameOf (row : Row) : option string :=
  JS.orElse (row !! "Customer Name") (row !! "Nombre del Cliente").

(** A skipped row is [None]; a record without a date has [dateKey = ""]. *)
Definition normalize (row : Row) : option TransactionRecord :=
  if isAshleyRegis (customerNameOf row) then None
  else if JS.truthy (receiptTypeOf row) && JS.truthy (profitStringOf row) then
    let profit := parseProfit (default "" (profitStringOf row)) in
    if JS.isNaN profit then None
    else Some {| kind := classify (default "" (receiptTypeOf row));
                 amount := profit;
                 dateKey := if JS.truthy (dateCreatedOf row)
                            then default "" (dateCreatedOf row) else "" |}
  else None.

Fixpoint records (data : list Row) : list TransactionRecord :=
  match data with
  | [] => []
  | row :: data' =>
      match normalize row with
      | Some r => r :: records data'
      | None => records data'
      end
  end.

Definition bump (k : Kind) (x : float) (d : DayData.t) : DayData.t :=
  match k with
  | Retail => DayData.mk (DayData.retail d + x)%float (DayData.club d)
  | Club => DayData.mk (DayData.retail d) (DayData.club d + x)%float
  | Unrecognized => d
  end.

(** The bucket of [key]: updated where it stands, or appended from zero. *)
Definition upsert (key : string) (k : Kind) (x : float) (m : JS.Map.t DayData.t)
    : JS.Map.t DayData.t :=
  match JS.Map.get key m with
  | Some d => JS.Map.set key (bump k x d) m
  | None => m ++ [(key, bump k x (DayData.mk 0 0))]
  end.

Definition accumulate (st : Locals.t) (r : TransactionRecord) : Locals.t :=
  Locals.mk
    (match kind r with Retail => (Locals.retailTotal st + amount r)%float
                     | _ => Locals.retailTotal st end)
    (match kind r with Club => (Locals.clubTotal st + amount r)%float
                     | _ => Locals.clubTotal st end)
    (if JS.nonEmpty (dateKey r) then upsert (dateKey r) (kind r) (amount r) (Locals.dailyMap st)
     else Locals.dailyMap st).

(** Left-to-right sums, as [+=] in a loop and [reduce] from 0 compute them. *)
Definition sumFrom (init : float) (xs : list float) : float :=
  fold_left (fun s x => (s + x)%float) xs init.

Definition Kind_eqb (a b : Kind) : bool :=
  match a, b with
  | Retail, Retail | Club, Club | Unrecognized, Unrecognized => true
  | _, _ => false
  end.

(** The amounts of the records of kind [k], in order. *)
Definition amountsOf (k : Kind) (rs : list TransactionRecord) : list float :=
  map amount (List.filter (fun r => Kind_eqb (kind r) k) rs).

Definition onDate (key : string) (rs : list TransactionRecord) : list TransactionRecord :=
  List.filter (fun r => String.eqb (dateKey r) key) rs.

(** The distinct non-empty keys of a list, in order of first appearance,
    after those already in [keys]. *)
Definition distinctKeysFrom {A} (key : A -> string) (keys : list string) (l : list A)
    : list string :=
  fold_left
    (fun keys a =>
       if JS.nonEmpty (key a) && negb (existsb (String.eqb (key a)) keys)
       then keys ++ [key a] else keys)
    l keys.

Definition firstSeenFrom : list string -> list TransactionRecord -> list string :=
  distinctKeysFrom dateKey.

Definition firstSeen : list TransactionRecord -> list string := firstSeenFrom [].

Definition bucketFrom (d0 : DayData.t) (rs : list TransactionRecord) : DayData.t :=
  fold_left (fun d r => bump (kind r) (amount r) d) rs d0.

(** The locals after the loop, the sorted daily array and the month
    selected by default, as [calculateTotals] computes them. *)
Definition finalState (data : list Row) : Locals.t :=
  fold_left accumulate (records data) (Locals.mk 0 0 []).

Definition dailySeries (Date_parse : string -> option JS.Date) (data : list Row)
    : list DailyProfit :=
  JS.sort (byDate Date_parse) (map toDailyProfit (Locals.dailyMap (finalState data))).

Definition defaultMonth (months : list string) : string :=
  match months with
  | m0 :: _ => m0
  | [] => "ALL"
  end.

(** ** Predicates of the statements *)

(** [comparefn] orders the elements of [l] as their integer [key]s. *)
Definition ordersBy {A} (comparefn : A -> A -> option Z) (key : A -> Z) (l : list A) : Prop :=
  forall x y, In x l -> In y l ->
    (JS.SortCompare comparefn x y <= 0 <-> key x <= key y).

Definition ascending {A} (key : A -> Z) : list A -> Prop :=
  StronglySorted (fun a b => key a <= key b).

(** Every labelled entry has a date the engine can read. *)
Definition labelledDatesValid (language : Language) (Date_parse : string -> option JS.Date)
    (dailyData : list DailyProfit) : Prop :=
  forall d, In d dailyData ->
    getMonthFromDate language Date_parse (date d) <> "" ->
    timeOf Date_parse (date d) <> None.

(** [t] is the latest time among the entries of [month]. *)
Definition isLatestOf (language : Language) (Date_parse : string -> option JS.Date)
    (dailyData : list DailyProfit) (month : string) (t : Z) : Prop :=
  (exists d, In d dailyData
             /\ getMonthFromDate language Date_parse (date d) = month
             /\ timeOf Date_parse (date d) = Some t)
  /\ forall d v, In d dailyData ->
                 getMonthFromDate language Date_parse (date d) = month ->
                 timeOf Date_parse (date d) = Some v -> v <= t.

(** [new Date(key).getTime()] is [t]. *)
Definition hasTime (Date_parse : string -> option JS.Date) (t : Z) (key : string) : bool :=
  match timeOf Date_parse key with
  | Some v => v =? t
  | None => false
  end.

(** Every entry has a date the engine can read. *)
Definition datesValid (Date_parse : string -> option JS.Date)
    (dailyData : list DailyProfit) : Prop :=
  forall day, In day dailyData -> timeOf Date_parse (date day) <> None.

(** Every array of [h] is in [h'], unchanged. *)
Definition extends (h h' : Heap.t) : Prop :=
  forall r a, Heap.read r h = Some a -> Heap.read r h' = Some a.

(** ** Inputs of the examples *)

(** The example of the specification. *)
Definition exampleRows : list Row :=
  [ {[ "Receipt Type" := "Retail Sale"; "Profit" := "$10.00"; "Date Created" := "01/05/2024" ]};
    {[ "Receipt Type" := "Club Visit/Sale"; "Profit" := "$5.50"; "Date Created" := "01/05/2024" ]};
    {[ "Receipt Type" := "Retail Sale"; "Profit" := "$3.00"; "Date Created" := "02/01/2024" ]} ].

Definition dimes : list Row :=
  [ {[ "Receipt Type" := "Retail Sale"; "Profit" := "$0.10"; "Date Created" := "01/05/2024" ]};
    {[ "Receipt Type" := "Retail Sale"; "Profit" := "$0.20"; "Date Created" := "01/06/2024" ]};
    {[ "Receipt Type" := "Retail Sale"; "Profit" := "$0.30"; "Date Created" := "01/06/2024" ]} ].

Definition shouting : Row :=
  {[ "Receipt Type" := "Retail Sale"; "Profit" := "$10.00";
     "Date Created" := "01/05/2024"; "Customer Name" := "  ASHLEY REGIS  " ]}.

Definition million : Row :=
  {[ "Receipt Type" := "Retail Sale"; "Profit" := "$1,234,567.89";
     "Date Created" := "01/05/2024" ]}.

Definition refundOfExcluded : Row :=
  {[ "Receipt Type" := "Refund"; "Profit" := "$2.00";
     "Date Created" := "01/06/2024"; "Customer Name" := "Ashley Regis" ]}.

Definition refund : Row :=
  {[ "Receipt Type" := "Refund"; "Profit" := "$2.00"; "Date Created" := "01/06/2024" ]}.

Definition englishRow (receiptType profit dateCreated customerName : string) : Row :=
  {[ "Receipt Type" := receiptType; "Profit" := profit;
     "Date Created" := dateCreated; "Customer Name" := customerName ]}.

Definition spanishRow (receiptType profit dateCreated customerName : string) : Row :=
  {[ "Tipo de Recibo" := receiptType; "Ganancia" := profit;
     "Fecha de creación" := dateCreated; "Nombre del Cliente" := customerName ]}.

Definition englishCategory (club : bool) : string :=
  if club then "Club Visit/Sale" else "Retail Sale".

Definition spanishCategory (club : bool) : string :=
  if club then "Visita al Club / Venta" else "Venta al menudeo".

Definition dayFirst : DailyProfit :=
  {| date := "13/01/2024"; retail := 7; club := 0; total := 7 |}.

Definition twoMonths : list DailyProfit :=
  [ {| date := "01/05/2024"; retail := 10; club := 5.5; total := 15.5 |};
    {| date := "02/01/2024"; retail := 3; club := 0; total := 3 |} ].

Definition placeholderDays : list Row :=
  [ {[ "Receipt Type" := "Retail Sale"; "Profit" := "$1.00"; "Date Created" := "01/05/2024" ]};
    {[ "Receipt Type" := "Retail Sale"; "Profit" := "$2.00"; "Date Created" := "02/xx/2024" ]};
    {[ "Receipt Type" := "Retail Sale"; "Profit" := "$3.00"; "Date Created" := "03/xx/2024" ]};
    {[ "Receipt Type" := "Retail Sale"; "Profit" := "$4.00"; "Date Created" := "04/01/2024" ]} ].

Definition exampleOutcome : Outcome :=
  {| salesData :=
       {| retailTotal := 13; clubTotal := 5.5; fileName := "sales.csv";
          dailyData := twoMonths |};
     availableMonths := ["February"; "January"];
     selectedMonth := "February" |}.

Definition dayFirstExport : list Row :=
  [ {[ "Receipt Type" := "Retail Sale"; "Profit" := "$1.00"; "Date Created" := "02/01/2024" ]};
    {[ "Receipt Type" := "Retail Sale"; "Profit" := "$2.00"; "Date Created" := "13/01/2024" ]};
    {[ "Receipt Type" := "Retail Sale"; "Profit" := "$3.00"; "Date Created" := "14/01/2024" ]};
    {[ "Receipt Type" := "Retail Sale"; "Profit" := "$4.00"; "Date Created" := "01/01/2024" ]} ].

Definition sameDayTwice : list Row :=
  [ {[ "Receipt Type" := "Retail Sale"; "Profit" := "$1.00"; "Date Created" := "02/01/2024" ]};
    {[ "Receipt Type" := "Club Visit/Sale"; "Profit" := "$2.00"; "Date Created" := "01/05/2024" ]};
    {[ "Receipt Type" := "Retail Sale"; "Profit" := "$3.00"; "Date Created" := "1/5/2024" ]} ].

Definition sameDayTwiceSeries : list DailyProfit :=
  [ {| date := "01/05/2024"; retail := 0; club := 2; total := 2 |};
    {| date := "1/5/2024"; retail := 3; club := 0; total := 3 |};
    {| date := "02/01/2024"; retail := 1; club := 0; total := 1 |} ].

(** ** The rest of the component: state, file intake, language, chart lines *)

Module Translations.
Record t : Type :=
  mk { title : string; subtitle : string; chooseFile : string; dragDrop : string;
       supportsFiles : string; file : string; retailSales : string; clubSales : string;
       totalProfit : string; errorCsv : string; errorExcel : string;
       errorFileType : string; copied : string; copy : string; summary : string;
       dailyBreakdown : string; dailyProfitChart : string }.
End Translations.

Definition translations (language : Language) : Translations.t :=
  match language with
  | en =>
      Translations.mk "Sales Analyzer" "Upload your sales data to calculate totals"
        "Choose File" "or drag and drop your file here" "Supports .xlsx and .csv files"
        "File" "Retail Sales" "Club Visit/Sale" "Total Profit" "Error parsing CSV file"
        "Error parsing Excel file" "Please upload a .xlsx or .csv file" "Copied!" "Copy"
        "Summary" "Daily Breakdown" "Daily Profit Trends"
  | es =>
      Translations.mk "Analizador de Ventas" "Sube tus datos de ventas para calcular totales"
        "Elegir Archivo" "o arrastra y suelta tu archivo aquí" "Soporta archivos .xlsx y .csv"
        "Archivo" "Ganancia De Ventas Al Menudeo" "Ganancia De Visita/Venta Al Club"
        "Ganancia Total" "Error al analizar archivo CSV" "Error al analizar archivo Excel"
        "Por favor sube un archivo .xlsx o .csv" "¡Copiado!" "Copiar"
        "Resumen" "Desglose Diario" "Tendencias de Ganancia Diaria"
  end.

(** The lines of the chart and their opacities. *)
Module Line.
Inductive t : Type := retail | club | total.
End Line.

Module LineOpacity.
Record t : Type := mk { retail : float; club : float; total : float }.
Definition get (line : Line.t) (o : t) : float :=
  match line with
  | Line.retail => retail o
  | Line.club => club o
  | Line.total => total o
  end.
Definition set (line : Line.t) (v : float) (o : t) : t :=
  match line with
  | Line.retail => mk v (club o) (total o)
  | Line.club => mk (retail o) v (total o)
  | Line.total => mk (retail o) (club o) v
  end.
End LineOpacity.

(** The literals [0.2] and [1.0]. *)
Definition dimmed : float := 0x1.999999999999ap-3%float.
Definition highlighted : float := 1%float.

(** [setLineOpacity(prev => ({ ...prev, [line]: prev[line] === 1.0 ? 0.2 : 1.0 }))] *)
Definition toggleLine (line : Line.t) (prev : LineOpacity.t) : LineOpacity.t :=
  LineOpacity.set line
    (if PrimFloat.eqb (LineOpacity.get line prev) highlighted then dimmed else highlighted)
    prev.

Inductive Tab : Type := summaryTab | dailyTab.

(** The component's state, one field per [useState]. *)
Module App.
Record t : Type :=
  mk { salesData : option SalesData;
       error : string;
       isDragging : bool;
       language : Language;
       copiedField : option string;
       activeTab : Tab;
       selectedMonth : string;
       availableMonths : list string;
       lineOpacity : LineOpacity.t }.

Definition initial : t :=
  mk None "" false en None summaryTab "ALL" [] (LineOpacity.mk dimmed dimmed highlighted).
End App.

(** *** The language preference *)

Definition languageCode (language : Language) : string :=
  match language with
  | en => "en"
  | es => "es"
  end.

(** [toggleLanguage]: the new language and the local storage after
    [setItem]. *)
Definition toggleLanguage (language : Language) (localStorage : gmap string string)
    : Language * gmap string string :=
  let newLanguage := match language with en => es | es => en end in
  (newLanguage, <["preferredLanguage" := languageCode newLanguage]> localStorage).

(** The effect run on mount: a saved ['en'] or ['es'] is adopted, anything
    else leaves the language as it is. *)
Definition loadLanguage (language : Language) (localStorage : gmap string string) : Language :=
  match localStorage !! "preferredLanguage" with
  | Some savedLanguage =>
      if JS.nonEmpty savedLanguage
         && (String.eqb savedLanguage "en" || String.eqb savedLanguage "es")
      then (if String.eqb savedLanguage "en" then en else es)
      else language
  | None => language
  end.

(** *** The month selector

    The ['ALL'] button is rendered when there is more than one month; a
    month button does nothing when it is the only one.  A click on a button
    that is not rendered is no click. *)
Module Selector.
Record t : Type := mk { availableMonths : list string; selectedMonth : string }.

Inductive Click : Type :=
| All
| Month (i : nat).

Definition click (s : t) (c : Click) : t :=
  match c with
  | All =>
      if (1 <? length (availableMonths s))%nat then mk (availableMonths s) "ALL" else s
  | Month i =>
      match nth_error (availableMonths s) i with
      | Some month =>
          let isSingleMonth := (length (availableMonths s) =? 1)%nat in
          if negb isSingleMonth then mk (availableMonths s) month else s
      | None => s
      end
  end.
End Selector.

(** *** File intake *)

Module File.
Record t : Type := mk { name : string; type : string }.
End File.

Inductive FileKind : Type := Csv | Excel | Unsupported.

(** [file.name.split('.').pop()?.toLowerCase()]; the lowercasing is the
    ASCII one of [JS.toLowerCase], which is enough for the comparisons with
    ['csv'], ['xlsx'] and ['xls']: no code point outside ASCII lowercases to
    one of their letters. *)
Definition fileExtension (name : string) : string :=
  JS.toLowerCase (List.last (JS.split "." name) "").

Definition isCsv (file : File.t) : bool :=
  String.eqb (fileExtension (File.name file)) "csv" || String.eqb (File.type file) "text/csv".

Definition isExcel (file : File.t) : bool :=
  String.eqb (fileExtension (File.name file)) "xlsx"
  || String.eqb (fileExtension (File.name file)) "xls"
  || String.eqb (File.type file)
       "application/vnd.openxmlformats-officedocument.spreadsheetml.sheet"
  || String.eqb (File.type file) "application/vnd.ms-excel".

Definition fileKind (file : File.t) : FileKind :=
  if isCsv file then Csv else if isExcel file then Excel else Unsupported.

(** What a decoder hands to its callbacks: the rows, or a failure with its
    message. *)
Inductive Decoded : Type :=
| Rows (data : list Row)
| Failed (message : string).

Section Component.

(** The [Date] parser and the two decoders, [Papa.parse] and the
    [FileReader] with [XLSX.read] and [sheet_to_json].  [processFile] is
    the state once the decoder has called back. *)
Variable Date_parse : string -> option JS.Date.
Variable Papa_parse : File.t -> Decoded.
Variable XLSX_read : File.t -> Decoded.

(** The four setters at the start of [processFile]. *)
Definition resetResults (st : App.t) : App.t :=
  App.mk None "" (App.isDragging st) (App.language st) (App.copiedField st)
    (App.activeTab st) "ALL" [] (App.lineOpacity st).

Definition setError (message : string) (st : App.t) : App.t :=
  App.mk (App.salesData st) message (App.isDragging st) (App.language st)
    (App.copiedField st) (App.activeTab st) (App.selectedMonth st)
    (App.availableMonths st) (App.lineOpacity st).

(** The three setters at the end of [calculateTotals]. *)
Definition setResults (out : Outcome) (st : App.t) : App.t :=
  App.mk (Some (salesData out)) (App.error st) (App.isDragging st) (App.language st)
    (App.copiedField st) (App.activeTab st) (selectedMonth out) (availableMonths out)
    (App.lineOpacity st).

Definition processFile (file : File.t) (st : App.t) : App.t :=
  let t := translations (App.language st) in
  let st0 := resetResults st in
  if isCsv file then
    match Papa_parse file with
    | Rows data =>
        match calculateTotals (App.language st) Date_parse data (File.name file) with
        | JS.Normal out => setResults out st0
        | JS.Throw _ => st0
        end
    | Failed message =>
        setError (String.append (Translations.errorCsv t) (String.append ": " message)) st0
    end
  else if isExcel file then
    match XLSX_read file with
    | Rows data =>
        match calculateTotals (App.language st) Date_parse data (File.name file) with
        | JS.Normal out => setResults out st0
        | JS.Throw _ => setError (Translations.errorExcel t) st0
        end
    | Failed _ => setError (Translations.errorExcel t) st0
    end
  else setError (Translations.errorFileType t) st0.

End Component.

(** What the buttons keep true of the selection. *)
Definition selectable (months : list string) (s : Selector.t) : Prop :=
  Selector.availableMonths s = months
  /\ match months with
     | [] => Selector.selectedMonth s = "ALL"
     | [m] => Selector.selectedMonth s = m
     | _ => Selector.selectedMonth s = "ALL" \/ In (Selector.selectedMonth s) months
     end.

(** [ext] holds no ['.']. *)
Fixpoint noDot (ext : string) : bool :=
  match ext with
  | EmptyString => true
  | String c ext' => negb (Ascii.eqb c ".") && noDot ext'
  end.

(** Number of clicks on [line] in a sequence of clicks. *)
Definition Line_eqb (a b : Line.t) : bool :=
  match a, b with
  | Line.retail, Line.retail | Line.club, Line.club | Line.total, Line.total => true
  | _, _ => false
  end.

Definition clicksOn (line : Line.t) (lines : list Line.t) : nat :=
  length (List.filter (Line_eqb line) lines).

(** A row the earlier version reads as the current one does: its customer
    is not the excluded one, no value is taken from a Spanish header, and
    its receipt type is not one of the Spanish categories. *)
Definition readAlikeByV1 (row : Row) : bool :=
  negb (isAshleyRegis (customerNameOf row))
  && (JS.truthy (row !! "Receipt Type") || negb (JS.truthy (row !! "Tipo de Recibo")))
  && (JS.truthy (row !! "Profit") || negb (JS.truthy (row !! "Ganancia")))
  && negb (String.eqb (default "" (row !! "Receipt Type")) "Venta al menudeo")
  && negb (String.eqb (default "" (row !! "Receipt Type")) "Visita al Club / Venta").

(** The name, among [to], at the place [m] has among [from]; [""] when [m]
    is not there.  [translateMonth] takes a month label of one language to
    the label of the same month in the other. *)
Fixpoint translateIn (from to : list string) (m : string) : string :=
  match from, to with
  | f :: from', t :: to' => if String.eqb m f then t else translateIn from' to' m
  | _, _ => ""
  end.

Definition translateMonth (language language' : Language) (m : string) : string :=
  translateIn (monthNames language) (monthNames language') m.

(** The eight headers the row callback reads, English before Spanish. *)
Definition headerPairs : list (string * string) :=
  [ ("Receipt Type", "Tipo de Recibo"); ("Profit", "Ganancia");
    ("Date Created", "Fecha de creación"); ("Customer Name", "Nombre del Cliente") ].

Definition undatedSale : Row :=
  {[ "Receipt Type" := "Retail Sale"; "Profit" := "$5.00" ]}.

(** ** The earlier version of the component

    Its [calculateTotals] reads the English headers only, knows the two
    English categories, excludes no customer and keeps no daily map; its
    [processFile] goes by the extension alone. *)
Module V1.

Record SalesData : Type :=
  { retailTotal : float; clubTotal : float; fileName : string }.

Definition calculateTotals_row (st : float * float) (row : Row) : float * float :=
  match row !! "Receipt Type", row !! "Profit" with
  | Some receiptType, Some profitString =>
      if JS.nonEmpty receiptType && JS.nonEmpty profitString then
        let profit := parseProfit profitString in
        if negb (JS.isNaN profit) then
          if String.eqb receiptType "Retail Sale" then (fst st + profit, snd st)%float
          else if String.eqb receiptType "Club Visit/Sale" then (fst st, snd st + profit)%float
          else st
        else st
      else st
  | _, _ => st
  end.

Definition calculateTotals (data : list Row) (fileName : string) : SalesData :=
  let st := fold_left calculateTotals_row data (0%float, 0%float) in
  {| retailTotal := fst st; clubTotal := snd st; fileName := fileName |}.

Definition fileKind (file : File.t) : FileKind :=
  if String.eqb (fileExtension (File.name file)) "csv" then Csv
  else if String.eqb (fileExtension (File.name file)) "xlsx"
          || String.eqb (fileExtension (File.name file)) "xls" then Excel
  else Unsupported.

End V1.

(** ** Facts about the runtime *)

Section MapFacts.
Context {V : Type}.
Implicit Types (m : JS.Map.t V) (k : string) (v : V).

Lemma Map_get_in k m : JS.Map.get k m = None <-> ~ In k (map fst m).
Proof.
  induction m as [|[k' v'] m IH]; simpl.
  - tauto.
  - destruct (String.eqb_spec k k') as [->|Hne].
    + split; [discriminate | intros H; exfalso; apply H; by left].
    + rewrite IH. split; [intros H [?|?]; congruence | tauto].
Qed.

Lemma Map_set_absent k v m : JS.Map.get k m = None -> JS.Map.set k v m = m ++ [(k, v)].
Proof.
  induction m as [|[k' v'] m IH]; simpl; [done|].
  destruct (String.eqb_spec k k'); [discriminate|].
  intros H. by rewrite IH.
Qed.

Lemma Map_get_set_eq k v m : JS.Map.get k (JS.Map.set k v m) = Some v.
Proof.
  induction m as [|[k' v'] m IH]; simpl.
  - by rewrite String.eqb_refl.
  - destruct (String.eqb_spec k k') as [->|Hne]; simpl.
    + by rewrite String.eqb_refl.
    + destruct (String.eqb_spec k k'); [done|]. apply IH.
Qed.

Lemma Map_get_set_ne k k' v m : k' <> k -> JS.Map.get k' (JS.Map.set k v m) = JS.Map.get k' m.
Proof.
  intros Hne. induction m as [|[k0 v0] m IH]; simpl.
  - destruct (String.eqb_spec k' k); done.
  - destruct (String.eqb_spec k k0) as [->|Hk]; simpl.
    + destruct (String.eqb_spec k' k0); done.
    + destruct (String.eqb_spec k' k0); [done|]. apply IH.
Qed.

Lemma Map_set_set k v v' m : JS.Map.set k v' (JS.Map.set k v m) = JS.Map.set k v' m.
Proof.
  induction m as [|[k0 v0] m IH]; simpl.
  - by rewrite String.eqb_refl.
  - destruct (String.eqb_spec k k0) as [->|Hk]; simpl.
    + by rewrite String.eqb_refl.
    + destruct (String.eqb_spec k k0); [done|]. by rewrite IH.
Qed.

Lemma Map_keys_set_present k v m :
  JS.Map.get k m <> None -> map fst (JS.Map.set k v m) = map fst m.
Proof.
  induction m as [|[k0 v0] m IH]; simpl; [done|].
  destruct (String.eqb_spec k k0) as [->|Hk]; simpl; [done|].
  intros H. by rewrite IH.
Qed.

Lemma Map_get_app_absent k m m' :
  JS.Map.get k m = None -> JS.Map.get k (m ++ m') = JS.Map.get k m'.
Proof.
  induction m as [|[k0 v0] m IH]; simpl; [done|].
  destruct (String.eqb_spec k k0); [discriminate|]. apply IH.
Qed.

Lemma Map_get_app_present k m m' v :
  JS.Map.get k m = Some v -> JS.Map.get k (m ++ m') = Some v.
Proof.
  induction m as [|[k0 v0] m IH]; simpl; [done|].
  destruct (String.eqb_spec k k0); [done|]. apply IH.
Qed.

(** An entry of a map without repeated keys is what [get] returns. *)
Lemma Map_get_entry k v m :
  List.NoDup (map fst m) -> In (k, v) m -> JS.Map.get k m = Some v.
Proof.
  induction m as [|[k0 v0] m IH]; simpl; [tauto|].
  intros Hnd [Heq|Hin].
  - injection Heq as -> ->. by rewrite String.eqb_refl.
  - apply List.NoDup_cons_iff in Hnd as [Hk0 Hnd].
    destruct (String.eqb_spec k k0) as [->|Hne]; [|by apply IH].
    exfalso. apply Hk0. apply in_map_iff. by exists (k0, v).
Qed.

End MapFacts.

(** ** The row callback is [normalize] followed by [accumulate] *)

Lemma addToDay_bump typeString profit d :
  addToDay typeString profit d = bump (classify typeString) profit d.
Proof.
  unfold addToDay, bump, classify.
  destruct (isRetailSale typeString); [done|].
  destruct (isClubVisit typeString); done.
Qed.

Lemma groupByDate_upsert dateKey typeString profit m :
  groupByDate dateKey typeString profit m
  = JS.Normal (upsert dateKey (classify typeString) profit m).
Proof.
  unfold groupByDate, upsert, JS.Map.has.
  destruct (JS.Map.get dateKey m) as [d|] eqn:Hget; simpl.
  - rewrite Hget. by rewrite addToDay_bump.
  - rewrite Map_get_set_eq, Map_set_set, addToDay_bump.
    by rewrite Map_set_absent.
Qed.

(** The row callback never throws. *)
Lemma calculateTotals_row_normalize st row :
  calculateTotals_row st row
  = JS.Normal (match normalize row with
               | Some r => accumulate st r
               | None => st
               end).
Proof.
  unfold calculateTotals_row, normalize.
  fold (receiptTypeOf row) (profitStringOf row) (dateCreatedOf row) (customerNameOf row).
  destruct (isAshleyRegis (customerNameOf row)); [done|].
  destruct (receiptTypeOf row) as [typeString|]; simpl; [|done].
  destruct (profitStringOf row) as [profitText|]; simpl;
    [|by rewrite andb_false_r].
  destruct (JS.nonEmpty typeString && JS.nonEmpty profitText); [|done].
  destruct (JS.isNaN (parseProfit profitText)); simpl; [done|].
  unfold accumulate, addToTotals, classify; simpl.
  destruct st as [rt ct dm]; simpl.
  destruct (dateCreatedOf row) as [dateKey|]; simpl.
  - destruct (JS.nonEmpty dateKey) eqn:Hd; simpl.
    + rewrite Hd.
      destruct (isRetailSale typeString) eqn:Hr; simpl.
      { rewrite groupByDate_upsert. unfold classify. by rewrite Hr. }
      destruct (isClubVisit typeString) eqn:Hc; simpl;
        rewrite groupByDate_upsert; unfold classify; by rewrite Hr, Hc.
    + destruct (isRetailSale typeString); [done|].
      destruct (isClubVisit typeString); done.
  - destruct (isRetailSale typeString); [done|].
    destruct (isClubVisit typeString); done.
Qed.

Lemma forEach_rows data st :
  JS.forEach calculateTotals_row data st
  = JS.Normal (fold_left accumulate (records data) st).
Proof.
  revert st. induction data as [|row data IH]; intros st; simpl; [done|].
  rewrite calculateTotals_row_normalize. simpl.
  rewrite IH. by destruct (normalize row).
Qed.

(** ** [Array.prototype.sort]: a permutation; sorted and stable under a
    comparator that orders by an integer key *)

Section SortFacts.
Context {A : Type}.
Variable comparefn : A -> A -> option Z.

Lemma insertSorted_In x l z : In z (JS.insertSorted comparefn x l) <-> z = x \/ In z l.
Proof.
  induction l as [|y l IH]; simpl.
  - intuition.
  - destruct (JS.SortCompare comparefn x y <=? 0); simpl; [intuition|].
    rewrite IH. intuition.
Qed.

Lemma insertSorted_Permutation x l : Permutation (JS.insertSorted comparefn x l) (x :: l).
Proof.
  induction l as [|y l IH]; simpl; [done|].
  destruct (JS.SortCompare comparefn x y <=? 0); [done|].
  rewrite IH. apply perm_swap.
Qed.

Lemma sort_cons x l :
  JS.sort comparefn (x :: l) = JS.insertSorted comparefn x (JS.sort comparefn l).
Proof. reflexivity. Qed.

Lemma sort_Permutation l : Permutation (JS.sort comparefn l) l.
Proof.
  induction l as [|x l IH]; [done|].
  rewrite sort_cons, insertSorted_Permutation. by constructor.
Qed.

Lemma sort_In l z : In z (JS.sort comparefn l) <-> In z l.
Proof.
  split; apply Permutation_in; [|symmetry]; apply sort_Permutation.
Qed.

Variable key : A -> Z.

Lemma insertSorted_ascending x l :
  (forall y, In y l -> (JS.SortCompare comparefn x y <= 0 <-> key x <= key y)) ->
  ascending key l -> ascending key (JS.insertSorted comparefn x l).
Proof.
  unfold ascending. intros Hx Hl. induction Hl as [|y l Hl IH Hy]; simpl.
  - repeat constructor.
  - destruct (Z.leb_spec (JS.SortCompare comparefn x y) 0) as [Hle|Hgt].
    + apply Hx in Hle; [|by left].
      constructor; [by constructor|].
      constructor; [done|].
      rewrite List.Forall_forall in Hy |- *. intros z Hz. specialize (Hy z Hz). lia.
    + assert (key y < key x) as Hlt.
      { destruct (Z.le_gt_cases (key x) (key y)) as [Hle|]; [|lia].
        apply Hx in Hle; [lia | by left]. }
      constructor.
      * apply IH. intros z Hz. apply Hx. by right.
      * apply List.Forall_forall. intros z [->|Hz]%insertSorted_In; [lia|].
        rewrite List.Forall_forall in Hy. by apply Hy.
Qed.

Lemma insertSorted_stable x l t :
  (forall y, In y l -> (JS.SortCompare comparefn x y <= 0 <-> key x <= key y)) ->
  List.filter (fun a => key a =? t) (JS.insertSorted comparefn x l)
  = List.filter (fun a => key a =? t) (x :: l).
Proof.
  induction l as [|y l IH]; intros Hx; [done|].
  simpl. destruct (Z.leb_spec (JS.SortCompare comparefn x y) 0) as [Hle|Hgt]; [done|].
  assert (key y < key x) as Hlt.
  { destruct (Z.le_gt_cases (key x) (key y)) as [Hle|]; [|lia].
    apply Hx in Hle; [lia | by left]. }
  simpl. rewrite IH by (intros z Hz; apply Hx; by right). simpl.
  destruct (Z.eqb_spec (key y) t), (Z.eqb_spec (key x) t); try done; lia.
Qed.

Lemma sort_ascending l : ordersBy comparefn key l -> ascending key (JS.sort comparefn l).
Proof.
  induction l as [|x l IH]; intros H; [constructor|].
  rewrite sort_cons. apply insertSorted_ascending.
  - intros y Hy. apply (proj1 (sort_In _ _)) in Hy.
    exact (H x y (or_introl eq_refl) (or_intror Hy)).
  - apply IH. intros a b Ha Hb. exact (H a b (or_intror Ha) (or_intror Hb)).
Qed.

Lemma sort_stable l t :
  ordersBy comparefn key l ->
  List.filter (fun a => key a =? t) (JS.sort comparefn l)
  = List.filter (fun a => key a =? t) l.
Proof.
  induction l as [|x l IH]; intros H; [done|].
  rewrite sort_cons, insertSorted_stable.
  - simpl. rewrite IH; [done|].
    intros a b Ha Hb. exact (H a b (or_intror Ha) (or_intror Hb)).
  - intros y Hy. apply (proj1 (sort_In _ _)) in Hy.
    exact (H x y (or_introl eq_refl) (or_intror Hy)).
Qed.

(** Sorted, read by positions. *)
Lemma ascending_lookup l i j a b :
  ascending key l -> (i < j)%nat -> nth_error l i = Some a -> nth_error l j = Some b ->
  key a <= key b.
Proof.
  intros Hl. revert i j. induction Hl as [|y l Hl IH Hy]; intros i j Hij Hi Hj.
  - by destruct i.
  - destruct j as [|j]; [lia|]. simpl in Hj.
    destruct i as [|i]; simpl in Hi.
    + injection Hi as ->. rewrite List.Forall_forall in Hy.
      apply Hy. by eapply nth_error_In.
    + apply (IH i j); [lia|done..].
Qed.

End SortFacts.

(** ** The state after the loop, in terms of the records *)

Lemma existsb_eqb_In k (keys : list string) :
  existsb (String.eqb k) keys = true <-> In k keys.
Proof.
  rewrite existsb_exists. split.
  - intros (x & Hx & ->%String.eqb_eq). done.
  - intros H. exists k. by rewrite String.eqb_refl.
Qed.

Lemma nonEmpty_spec s : JS.nonEmpty s = true <-> s <> "".
Proof.
  unfold JS.nonEmpty. destruct (String.eqb_spec s ""); simpl; split; congruence.
Qed.

Lemma retailTotal_fold rs st :
  Locals.retailTotal (fold_left accumulate rs st)
  = sumFrom (Locals.retailTotal st) (amountsOf Retail rs).
Proof.
  revert st. induction rs as [|r rs IH]; intros st; [done|].
  simpl. rewrite IH. unfold amountsOf. simpl. by destruct (kind r).
Qed.

Lemma clubTotal_fold rs st :
  Locals.clubTotal (fold_left accumulate rs st)
  = sumFrom (Locals.clubTotal st) (amountsOf Club rs).
Proof.
  revert st. induction rs as [|r rs IH]; intros st; [done|].
  simpl. rewrite IH. unfold amountsOf. simpl. by destruct (kind r).
Qed.

Lemma bucketFrom_retail d0 rs :
  DayData.retail (bucketFrom d0 rs) = sumFrom (DayData.retail d0) (amountsOf Retail rs).
Proof.
  revert d0. induction rs as [|r rs IH]; intros d0; [done|].
  unfold bucketFrom in *. simpl. rewrite IH. unfold amountsOf. simpl.
  by destruct (kind r).
Qed.

Lemma bucketFrom_club d0 rs :
  DayData.club (bucketFrom d0 rs) = sumFrom (DayData.club d0) (amountsOf Club rs).
Proof.
  revert d0. induction rs as [|r rs IH]; intros d0; [done|].
  unfold bucketFrom in *. simpl. rewrite IH. unfold amountsOf. simpl.
  by destruct (kind r).
Qed.

Lemma get_upsert k key kd x m :
  JS.Map.get k (upsert key kd x m)
  = if String.eqb key k
    then Some (bump kd x (default (DayData.mk 0 0) (JS.Map.get k m)))
    else JS.Map.get k m.
Proof.
  unfold upsert. destruct (String.eqb_spec key k) as [->|Hne].
  - destruct (JS.Map.get k m) as [d|] eqn:Hget; simpl.
    + apply Map_get_set_eq.
    + rewrite Map_get_app_absent by done. simpl. by rewrite String.eqb_refl.
  - destruct (JS.Map.get key m) as [d|] eqn:Hget.
    + by apply Map_get_set_ne.
    + destruct (JS.Map.get k m) as [d|] eqn:Hk.
      * by apply Map_get_app_present.
      * rewrite Map_get_app_absent by done. simpl.
        destruct (String.eqb_spec k key); congruence.
Qed.

Lemma keys_upsert key kd x m :
  map fst (upsert key kd x m)
  = if existsb (String.eqb key) (map fst m) then map fst m else map fst m ++ [key].
Proof.
  unfold upsert. destruct (JS.Map.get key m) as [d|] eqn:Hget.
  - rewrite Map_keys_set_present by congruence.
    replace (existsb (String.eqb key) (map fst m)) with true; [done|].
    symmetry. apply existsb_eqb_In.
    destruct (in_dec String.string_dec key (map fst m)) as [|Hn]; [done|].
    apply Map_get_in in Hn. congruence.
  - replace (existsb (String.eqb key) (map fst m)) with false.
    + by rewrite map_app.
    + symmetry. apply not_true_is_false. rewrite existsb_eqb_In.
      by apply Map_get_in.
Qed.

Lemma dailyMap_get rs st k :
  JS.nonEmpty k = true ->
  JS.Map.get k (Locals.dailyMap (fold_left accumulate rs st))
  = match onDate k rs with
    | [] => JS.Map.get k (Locals.dailyMap st)
    | _ :: _ =>
        Some (bucketFrom (default (DayData.mk 0 0) (JS.Map.get k (Locals.dailyMap st)))
                (onDate k rs))
    end.
Proof.
  intros Hk. revert st. induction rs as [|r rs IH]; intros st; [done|].
  simpl fold_left. rewrite IH. unfold onDate. simpl List.filter.
  fold (onDate k rs).
  destruct (String.eqb_spec (dateKey r) k) as [Heq|Hne].
  - assert (JS.Map.get k (Locals.dailyMap (accumulate st r))
            = Some (bump (kind r) (amount r)
                      (default (DayData.mk 0 0) (JS.Map.get k (Locals.dailyMap st)))))
      as ->.
    { simpl. rewrite Heq, Hk, get_upsert. by rewrite String.eqb_refl. }
    by destruct (onDate k rs).
  - assert (JS.Map.get k (Locals.dailyMap (accumulate st r))
            = JS.Map.get k (Locals.dailyMap st)) as ->; [|done].
    simpl. destruct (JS.nonEmpty (dateKey r)); [|done].
    rewrite get_upsert. by destruct (String.eqb_spec (dateKey r) k).
Qed.

Lemma dailyMap_keys rs st :
  map fst (Locals.dailyMap (fold_left accumulate rs st))
  = firstSeenFrom (map fst (Locals.dailyMap st)) rs.
Proof.
  revert st. induction rs as [|r rs IH]; intros st; [done|].
  simpl. rewrite IH. unfold firstSeenFrom at 2. simpl. f_equal.
  destruct (JS.nonEmpty (dateKey r)); simpl; [|done].
  rewrite keys_upsert. by destruct (existsb _ _).
Qed.

Lemma distinctKeysFrom_NoDup {A} (key : A -> string) l keys :
  List.NoDup keys -> List.NoDup (distinctKeysFrom key keys l).
Proof.
  revert keys. induction l as [|r rs IH]; intros keys Hk; [done|].
  simpl. apply IH.
  destruct (JS.nonEmpty (key r)); simpl; [|done].
  destruct (existsb (String.eqb (key r)) keys) eqn:He; simpl; [done|].
  apply (Permutation_NoDup (l := key r :: keys)).
  - apply Permutation_cons_append.
  - apply List.NoDup_cons; [|done].
    intros Hin. apply existsb_eqb_In in Hin. congruence.
Qed.

Lemma distinctKeysFrom_In {A} (key : A -> string) l keys k :
  In k (distinctKeysFrom key keys l)
  <-> In k keys \/ (k <> "" /\ exists r, In r l /\ key r = k).
Proof.
  revert keys. induction l as [|r rs IH]; intros keys; simpl.
  - split; [by left | intros [?|(_ & r & [] & _)]; done].
  - rewrite IH. clear IH.
    destruct (JS.nonEmpty (key r)) eqn:Hne; simpl.
    + apply nonEmpty_spec in Hne.
      destruct (existsb (String.eqb (key r)) keys) eqn:He; simpl.
      * apply existsb_eqb_In in He. split.
        -- intros [?|(? & r' & ? & ?)]; [by left|]. right. split; [done|]. eauto.
        -- intros [?|(? & r' & [->|?] & <-)]; [by left | by left |].
           right. split; [done|]. eauto.
      * rewrite in_app_iff. simpl. split.
        -- intros [[?|[<-|[]]]|(? & r' & ? & ?)]; [by left | | ].
           ++ right. split; [done|]. eauto.
           ++ right. split; [done|]. eauto.
        -- intros [?|(? & r' & [->|?] & <-)]; [left; by left | left; right; by left |].
           right. split; [done|]. eauto.
    + assert (key r = "") as Hr.
      { destruct (String.eqb_spec (key r) "") as [|Hx]; [done|].
        apply nonEmpty_spec in Hx. congruence. }
      split.
      * intros [?|(? & r' & ? & ?)]; [by left|]. right. split; [done|]. eauto.
      * intros [?|(? & r' & [->|?] & <-)]; [by left | congruence |].
        right. split; [done|]. eauto.
Qed.

(** ** Grouping by date rearranges the amounts *)

Lemma flat_map_ext_In {A B} (f g : A -> list B) l :
  (forall a, In a l -> f a = g a) -> flat_map f l = flat_map g l.
Proof.
  induction l as [|a l IH]; intros H; [done|].
  simpl. rewrite (H a) by (by left). rewrite IH; [done|].
  intros b Hb. apply H. by right.
Qed.

Lemma flat_map_map {A B C} (g : A -> B) (f : B -> list C) l :
  flat_map f (map g l) = flat_map (fun a => f (g a)) l.
Proof. induction l as [|a l IH]; simpl; [done|]. by rewrite IH. Qed.

Lemma flat_map_nil {A B} (l : list A) : flat_map (fun _ => @nil B) l = [].
Proof. by induction l. Qed.

Lemma amountsOf_onDate_cons kd k r rs :
  amountsOf kd (onDate k (r :: rs))
  = if String.eqb (dateKey r) k && Kind_eqb (kind r) kd
    then amount r :: amountsOf kd (onDate k rs)
    else amountsOf kd (onDate k rs).
Proof.
  unfold amountsOf, onDate. simpl.
  destruct (String.eqb (dateKey r) k); simpl; [|done].
  by destruct (Kind_eqb (kind r) kd).
Qed.

Lemma amountsOf_grouped kd keys rs :
  List.NoDup keys ->
  (forall r, In r rs -> Kind_eqb (kind r) kd = true -> In (dateKey r) keys) ->
  Permutation (amountsOf kd rs) (flat_map (fun k => amountsOf kd (onDate k rs)) keys).
Proof.
  intros Hnd. induction rs as [|r rs IH]; intros Hin.
  - rewrite (flat_map_ext_In _ (fun _ => [])) by done.
    by rewrite flat_map_nil.
  - assert (Permutation (amountsOf kd rs)
              (flat_map (fun k => amountsOf kd (onDate k rs)) keys)) as IH'.
    { apply IH. intros r' Hr'. apply Hin. by right. }
    destruct (Kind_eqb (kind r) kd) eqn:Hkd.
    + assert (amountsOf kd (r :: rs) = amount r :: amountsOf kd rs) as ->.
      { unfold amountsOf. simpl. by rewrite Hkd. }
      destruct (in_split (dateKey r) keys) as (k1 & k2 & ->).
      { apply Hin; [by left | done]. }
      apply NoDup_remove_2 in Hnd.
      rewrite !flat_map_app in *. cbn [flat_map] in *.
      rewrite (flat_map_ext_In _ (fun k => amountsOf kd (onDate k rs)) k1).
      2:{ intros k Hk. cbv beta. rewrite amountsOf_onDate_cons.
          destruct (String.eqb_spec (dateKey r) k) as [<-|]; [|done].
          exfalso. apply Hnd. apply in_or_app. by left. }
      rewrite (flat_map_ext_In _ (fun k => amountsOf kd (onDate k rs)) k2).
      2:{ intros k Hk. cbv beta. rewrite amountsOf_onDate_cons.
          destruct (String.eqb_spec (dateKey r) k) as [<-|]; [|done].
          exfalso. apply Hnd. apply in_or_app. by right. }
      rewrite amountsOf_onDate_cons, String.eqb_refl, Hkd. cbn [andb].
      rewrite IH'. rewrite <- app_comm_cons. apply Permutation_middle.
    + assert (amountsOf kd (r :: rs) = amountsOf kd rs) as ->.
      { unfold amountsOf. simpl. by rewrite Hkd. }
      rewrite IH'. apply Permutation_refl'.
      apply flat_map_ext_In. intros k _. cbv beta.
      rewrite amountsOf_onDate_cons, Hkd. by rewrite andb_false_r.
Qed.

(** ** The outcome of [calculateTotals] *)

Lemma firstSeen_NoDup rs : List.NoDup (firstSeen rs).
Proof. apply distinctKeysFrom_NoDup. constructor. Qed.

Lemma firstSeen_In rs k :
  In k (firstSeen rs) <-> k <> "" /\ exists r, In r rs /\ dateKey r = k.
Proof. unfold firstSeen, firstSeenFrom. rewrite distinctKeysFrom_In. simpl. tauto. Qed.

Lemma map_date_toDailyProfit (m : JS.Map.t DayData.t) :
  map date (map toDailyProfit m) = map fst m.
Proof. induction m as [|[k v] m IH]; simpl; [done|]. by rewrite IH. Qed.

Section Aggregation.
Variable language : Language.
Variable Date_parse : string -> option JS.Date.

Lemma calculateTotals_run data fileName :
  calculateTotals language Date_parse data fileName
  = JS.Normal
      {| salesData :=
           {| retailTotal := Locals.retailTotal (finalState data);
              clubTotal := Locals.clubTotal (finalState data);
              fileName := fileName;
              dailyData := dailySeries Date_parse data |};
         availableMonths := getAllUniqueMonths language Date_parse (dailySeries Date_parse data);
         selectedMonth :=
           defaultMonth (getAllUniqueMonths language Date_parse (dailySeries Date_parse data)) |}.
Proof.
  unfold calculateTotals. rewrite forEach_rows. simpl.
  fold (finalState data). fold (dailySeries Date_parse data).
  by destruct (getAllUniqueMonths language Date_parse (dailySeries Date_parse data)) as [|? [|? ?]].
Qed.

Lemma finalState_keys data :
  map fst (Locals.dailyMap (finalState data)) = firstSeen (records data).
Proof. unfold finalState. by rewrite dailyMap_keys. Qed.

Lemma dailySeries_dates data :
  Permutation (map date (dailySeries Date_parse data)) (firstSeen (records data)).
Proof.
  unfold dailySeries. rewrite sort_Permutation.
  by rewrite map_date_toDailyProfit, finalState_keys.
Qed.

Lemma dailySeries_entry data day :
  In day (dailySeries Date_parse data) ->
  let rs := onDate (date day) (records data) in
  rs <> []
  /\ date day <> ""
  /\ retail day = sumFrom 0 (amountsOf Retail rs)
  /\ club day = sumFrom 0 (amountsOf Club rs)
  /\ total day = (retail day + club day)%float.
Proof.
  intros Hin rs. apply (proj1 (sort_In _ _ _)) in Hin.
  apply in_map_iff in Hin as ([k v] & <- & Hkv). simpl in rs.
  assert (In k (firstSeen (records data))) as Hk.
  { rewrite <- finalState_keys. apply in_map_iff. by exists (k, v). }
  apply Map_get_entry in Hkv.
  2:{ rewrite finalState_keys. apply firstSeen_NoDup. }
  apply firstSeen_In in Hk as (Hne & _).
  unfold finalState in Hkv. rewrite dailyMap_get in Hkv by (by apply nonEmpty_spec).
  fold rs in Hkv. cbn [Locals.dailyMap JS.Map.get default] in Hkv.
  assert (rs <> [] /\ v = bucketFrom (DayData.mk 0 0) rs) as [Hrs ->].
  { destruct rs; [done|]. injection Hkv as <-. done. }
  cbn [toDailyProfit date retail club total].
  rewrite bucketFrom_retail, bucketFrom_club. done.
Qed.

End Aggregation.

(** ** Running totals against the daily series *)

(** C1, as stated, fails: three dated retail rows of $0.10, $0.20 and
    $0.30.  The running total is (0.1 + 0.2) + 0.3 = 0.6000000000000001 in
    binary64; the two buckets hold 0.1 and 0.2 + 0.3 = 0.5, and their totals
    add up to 0.6, in either order. *)
Lemma C1_sum_of_totals_differs :
  exists out,
    calculateTotals en Calendar.Date_parse dimes "sales.csv" = JS.Normal out
    /\ Forall (fun r => dateKey r <> "") (records dimes)
    /\ (retailTotal (salesData out) + clubTotal (salesData out))%float
       = JS.parseFloat "0.6000000000000001"
    /\ sumFrom 0 (map total (dailyData (salesData out))) = JS.parseFloat "0.6"
    /\ sumFrom 0 (rev (map total (dailyData (salesData out)))) = JS.parseFloat "0.6"
    /\ (retailTotal (salesData out) + clubTotal (salesData out))%float
       <> sumFrom 0 (map total (dailyData (salesData out))).
Proof.
  eexists. split; [vm_compute; reflexivity|].
  split; [|repeat split; try (vm_compute; reflexivity)].
  - vm_compute. repeat constructor; discriminate.
  - intros H.
    apply (f_equal (fun x => PrimFloat.eqb x (JS.parseFloat "0.6"))) in H.
    vm_compute in H. discriminate.
Qed.

(** C1 (amended).  [calculateTotals] returns; [retailTotal] and [clubTotal]
    are the left-to-right binary64 sums of the retail and club amounts of
    the records (the rows that are not skipped), dated or not; the daily
    series has one entry per distinct date, whose [retail] and [club] are
    the left-to-right sums of that date's amounts and whose [total] is
    their sum; when every retail or club record carries a non-empty date,
    the amounts summed into the entries are, up to order, exactly the
    amounts summed into the running totals (so the two sides of the claim
    agree in exact arithmetic and differ by rounding only); and a record
    without a date is added to its running total and leaves [dailyMap] as
    it was. *)
Theorem C1_totals_and_series_sum_the_same_amounts
    (language : Language) (Date_parse : string -> option JS.Date)
    (data : list Row) (fileName : string) :
  exists out,
    calculateTotals language Date_parse data fileName = JS.Normal out
    /\ retailTotal (salesData out) = sumFrom 0 (amountsOf Retail (records data))
    /\ clubTotal (salesData out) = sumFrom 0 (amountsOf Club (records data))
    /\ List.NoDup (map date (dailyData (salesData out)))
    /\ (forall day, In day (dailyData (salesData out)) ->
          retail day = sumFrom 0 (amountsOf Retail (onDate (date day) (records data)))
          /\ club day = sumFrom 0 (amountsOf Club (onDate (date day) (records data)))
          /\ total day = (retail day + club day)%float)
    /\ ((forall r, In r (records data) -> kind r <> Unrecognized -> dateKey r <> "") ->
          Permutation (amountsOf Retail (records data))
            (flat_map (fun day => amountsOf Retail (onDate (date day) (records data)))
               (dailyData (salesData out)))
          /\ Permutation (amountsOf Club (records data))
               (flat_map (fun day => amountsOf Club (onDate (date day) (records data)))
                  (dailyData (salesData out))))
    /\ (forall st row r,
          normalize row = Some r -> dateKey r = "" ->
          calculateTotals_row st row
          = JS.Normal
              (Locals.mk
                 (match kind r with
                  | Retail => (Locals.retailTotal st + amount r)%float
                  | _ => Locals.retailTotal st
                  end)
                 (match kind r with
                  | Club => (Locals.clubTotal st + amount r)%float
                  | _ => Locals.clubTotal st
                  end)
                 (Locals.dailyMap st))).
Proof.
  eexists. split; [apply calculateTotals_run|]. simpl.
  assert (List.NoDup (map date (dailySeries Date_parse data))) as Hnd.
  { eapply Permutation_NoDup; [symmetry; apply dailySeries_dates|].
    apply firstSeen_NoDup. }
  split; [unfold finalState; by rewrite retailTotal_fold|].
  split; [unfold finalState; by rewrite clubTotal_fold|].
  split; [done|].
  split; [intros day Hday; apply dailySeries_entry in Hday; tauto|].
  split.
  - intros Hdated.
    assert (forall kd, kd <> Unrecognized ->
              Permutation (amountsOf kd (records data))
                (flat_map (fun day => amountsOf kd (onDate (date day) (records data)))
                   (dailySeries Date_parse data))) as Hperm.
    { intros kd Hkd.
      rewrite <- (flat_map_map date (fun k => amountsOf kd (onDate k (records data)))).
      apply amountsOf_grouped; [done|].
      intros r Hr Hk.
      eapply Permutation_in; [symmetry; apply dailySeries_dates|].
      apply firstSeen_In. split; [|by exists r].
      apply Hdated; [done|]. destruct (kind r), kd; done. }
    split; by apply Hperm.
  - intros st row r Hrow Hdate.
    rewrite calculateTotals_row_normalize, Hrow.
    unfold accumulate. by rewrite Hdate.
Qed.

(** The example of the specification: every record is dated, and the
    amounts of the running totals are those of the two buckets. *)
Lemma C1_totals_and_series_witness :
  (forall r, In r (records exampleRows) -> kind r <> Unrecognized -> dateKey r <> "")
  /\ exists out,
       calculateTotals en Calendar.Date_parse exampleRows "sales.csv" = JS.Normal out
       /\ Permutation (amountsOf Retail (records exampleRows))
            (flat_map (fun day => amountsOf Retail (onDate (date day) (records exampleRows)))
               (dailyData (salesData out)))
       /\ Permutation (amountsOf Club (records exampleRows))
            (flat_map (fun day => amountsOf Club (onDate (date day) (records exampleRows)))
               (dailyData (salesData out))).
Proof.
  assert (forall r, In r (records exampleRows) -> kind r <> Unrecognized -> dateKey r <> "")
    as Hdated.
  { intros r Hr _. vm_compute in Hr. destruct Hr as [<-|[<-|[<-|[]]]]; discriminate. }
  split; [exact Hdated|].
  destruct (C1_totals_and_series_sum_the_same_amounts en Calendar.Date_parse
              exampleRows "sales.csv") as (out & Hrun & _ & _ & _ & _ & Hperm & _).
  exists out. split; [exact Hrun|]. exact (Hperm Hdated).
Defined.

(** ** Skipped rows *)

Lemma records_app d1 d2 : records (d1 ++ d2) = records d1 ++ records d2.
Proof.
  induction d1 as [|row d1 IH]; simpl; [done|].
  destruct (normalize row); simpl; by rewrite IH.
Qed.

(** [calculateTotals] sees its rows through their records only. *)
Lemma calculateTotals_records language Date_parse d1 d2 fileName :
  records d1 = records d2 ->
  calculateTotals language Date_parse d1 fileName
  = calculateTotals language Date_parse d2 fileName.
Proof.
  intros H. rewrite !calculateTotals_run.
  unfold dailySeries, finalState. by rewrite H.
Qed.

Lemma skipped_row_dropped language Date_parse pre row post fileName :
  normalize row = None ->
  calculateTotals language Date_parse (pre ++ row :: post) fileName
  = calculateTotals language Date_parse (pre ++ post) fileName.
Proof.
  intros H. apply calculateTotals_records.
  rewrite !records_app. simpl. by rewrite H.
Qed.

Lemma isAshleyRegis_spec customerName :
  isAshleyRegis customerName = true
  <-> exists c, customerName = Some c /\ JS.toLowerCase (JS.trim c) = "ashley regis".
Proof.
  unfold isAshleyRegis. destruct customerName as [c|].
  - split.
    + intros [_ H%String.eqb_eq]%andb_true_iff. eauto.
    + intros (c' & [= <-] & H). apply andb_true_iff. split.
      * destruct c; [discriminate H | done].
      * by apply String.eqb_eq.
  - split; [discriminate | intros (? & ? & _); discriminate].
Qed.

(** C3.  A row whose resolved customer name, trimmed and lowercased, is
    ['ashley regis'] leaves the running totals and the buckets as they were,
    whatever its receipt type, amount and date; the aggregation of a file
    is the aggregation of the file without that row. *)
Theorem C3_excluded_customer_contributes_nothing
    (row : Row) (c : string) :
  customerNameOf row = Some c ->
  JS.toLowerCase (JS.trim c) = "ashley regis" ->
  (forall st, calculateTotals_row st row = JS.Normal st)
  /\ (forall language Date_parse pre post fileName,
        calculateTotals language Date_parse (pre ++ row :: post) fileName
        = calculateTotals language Date_parse (pre ++ post) fileName).
Proof.
  intros Hc Hname.
  assert (normalize row = None) as Hskip.
  { unfold normalize.
    replace (isAshleyRegis (customerNameOf row)) with true; [done|].
    symmetry. apply isAshleyRegis_spec. eauto. }
  split.
  - intros st. by rewrite calculateTotals_row_normalize, Hskip.
  - intros. by apply skipped_row_dropped.
Qed.

Lemma C3_excluded_customer_witness :
  customerNameOf shouting = Some "  ASHLEY REGIS  "
  /\ JS.toLowerCase (JS.trim "  ASHLEY REGIS  ") = "ashley regis"
  /\ (forall st, calculateTotals_row st shouting = JS.Normal st)
  /\ (forall language Date_parse pre post fileName,
        calculateTotals language Date_parse (pre ++ shouting :: post) fileName
        = calculateTotals language Date_parse (pre ++ post) fileName).
Proof.
  split; [vm_compute; reflexivity|].
  split; [vm_compute; reflexivity|].
  apply (C3_excluded_customer_contributes_nothing shouting "  ASHLEY REGIS  ");
    vm_compute; reflexivity.
Defined.

(** The three spellings of the specification. *)
Example excluded_spellings :
  isAshleyRegis (Some "Ashley Regis") = true
  /\ isAshleyRegis (Some "ashley regis") = true
  /\ isAshleyRegis (Some "  ASHLEY REGIS  ") = true
  /\ isAshleyRegis (Some "Ashley Regis Jr.") = false.
Proof. repeat split; vm_compute; reflexivity. Qed.

(** ** Amount parsing *)

(** A row lacking the receipt type or the profit, or whose profit text does
    not start with a number after the two replacements, changes nothing. *)
Lemma malformed_row_skipped st row :
  JS.truthy (receiptTypeOf row) = false
  \/ JS.truthy (profitStringOf row) = false
  \/ JS.isNaN (parseProfit (default "" (profitStringOf row))) = true ->
  calculateTotals_row st row = JS.Normal st.
Proof.
  intros H. rewrite calculateTotals_row_normalize.
  replace (normalize row) with (@None TransactionRecord); [done|].
  unfold normalize. destruct (isAshleyRegis _); [done|].
  destruct H as [-> | [-> | ->]]; [done| |].
  - by rewrite andb_false_r.
  - by destruct (_ && _).
Qed.

(** C4 (the code departs from it).  ['$1,234,567.89'] has two thousands
    separators; [replace(',', '')] removes the first one only, so
    [parseFloat] reads ['1234,567.89'] and stops at the comma: the row
    counts for 1234, not for 1234567.89.  A text that is not a number at
    all, such as ['N/A'], does give [NaN]. *)
Theorem C4_only_first_comma_is_stripped :
  JS.replace "," "" (JS.replace "$" "" "$1,234,567.89") = "1234,567.89"
  /\ parseProfit "$1,234,567.89" = JS.parseFloat "1234"
  /\ parseProfit "$1,234.56" = JS.parseFloat "1234.56"
  /\ JS.isNaN (parseProfit "N/A") = true
  /\ exists out,
       calculateTotals en Calendar.Date_parse [million] "sales.csv" = JS.Normal out
       /\ retailTotal (salesData out) = JS.parseFloat "1234"
       /\ map retail (dailyData (salesData out)) = [JS.parseFloat "1234"].
Proof.
  repeat split; try (vm_compute; reflexivity).
  eexists. split; [vm_compute; reflexivity|].
  split; vm_compute; reflexivity.
Qed.

(** ** Rows of an unrecognized type *)

Lemma parseProfit_empty : JS.isNaN (parseProfit "") = true.
Proof. vm_compute. reflexivity. Qed.

(** C8, as stated, fails: this row has a receipt type, a parseable amount,
    a date and a type that is none of the four categories, and yet it
    creates no bucket, because its customer is the excluded one. *)
Lemma C8_excluded_refund_creates_no_bucket :
  receiptTypeOf refundOfExcluded = Some "Refund"
  /\ isRetailSale "Refund" = false /\ isClubVisit "Refund" = false
  /\ profitStringOf refundOfExcluded = Some "$2.00"
  /\ JS.isNaN (parseProfit "$2.00") = false
  /\ dateCreatedOf refundOfExcluded = Some "01/06/2024"
  /\ calculateTotals_row (Locals.mk 0 0 []) refundOfExcluded = JS.Normal (Locals.mk 0 0 [])
  /\ exists out,
       calculateTotals en Calendar.Date_parse [refundOfExcluded] "sales.csv" = JS.Normal out
       /\ dailyData (salesData out) = [].
Proof.
  repeat split; try (vm_compute; reflexivity).
  eexists. split; vm_compute; reflexivity.
Qed.

(** C8 (amended).  A row that is not the excluded customer's, with a
    receipt type that is none of the four categories, a profit text that
    parses and a non-empty date: the two running totals stay as they are; if
    the date already has a bucket the map is unchanged, otherwise a bucket
    with retail 0 and club 0 is appended for that exact date string. *)
Theorem C8_unrecognized_dated_row
    (st : Locals.t) (row : Row) (typeString profitText dateText : string) :
  isAshleyRegis (customerNameOf row) = false ->
  receiptTypeOf row = Some typeString -> typeString <> "" ->
  isRetailSale typeString = false -> isClubVisit typeString = false ->
  profitStringOf row = Some profitText ->
  JS.isNaN (parseProfit profitText) = false ->
  dateCreatedOf row = Some dateText -> dateText <> "" ->
  calculateTotals_row st row
  = JS.Normal
      (Locals.mk (Locals.retailTotal st) (Locals.clubTotal st)
         (if JS.Map.has dateText (Locals.dailyMap st) then Locals.dailyMap st
          else Locals.dailyMap st ++ [(dateText, DayData.mk 0 0)])).
Proof.
  intros Hc Ht Htne Hr Hcl Hp Hnan Hd Hdne.
  rewrite calculateTotals_row_normalize. unfold normalize.
  assert (profitText <> "") as Hpne.
  { intros ->. rewrite parseProfit_empty in Hnan. discriminate. }
  rewrite Hc, Ht, Hp, Hd. simpl.
  apply nonEmpty_spec in Htne, Hpne, Hdne.
  rewrite Htne, Hpne, Hnan, Hdne. simpl.
  unfold accumulate, classify. simpl. rewrite Hr, Hcl, Hdne.
  unfold upsert, JS.Map.has.
  destruct (JS.Map.get dateText (Locals.dailyMap st)) as [d|] eqn:Hget; [|done].
  simpl. do 2 f_equal.
  clear -Hget. revert Hget.
  induction (Locals.dailyMap st) as [|[k v] m IH]; simpl; [done|].
  destruct (String.eqb_spec dateText k) as [->|]; [by intros [= ->]|].
  intros H. by rewrite IH.
Qed.

Lemma C8_unrecognized_dated_row_witness :
  calculateTotals_row (Locals.mk 0 0 []) refund
  = JS.Normal (Locals.mk 0 0 [("01/06/2024", DayData.mk 0 0)]).
Proof.
  apply (C8_unrecognized_dated_row (Locals.mk 0 0 []) refund "Refund" "$2.00" "01/06/2024");
    try (vm_compute; reflexivity); discriminate.
Defined.

(** The example of the specification: the bucket is there, with total 0,
    and nothing is added to the running totals. *)
Example refund_alone :
  calculateTotals en Calendar.Date_parse [refund] "sales.csv"
  = JS.Normal
      {| salesData :=
           {| retailTotal := 0; clubTotal := 0; fileName := "sales.csv";
              dailyData := [ {| date := "01/06/2024"; retail := 0; club := 0; total := 0 |} ] |};
         availableMonths := ["January"];
         selectedMonth := "January" |}.
Proof. vm_compute. reflexivity. Qed.

(** ** Completion *)

Lemma amountsOf_none kd rs :
  (forall r, In r rs -> kind r = Unrecognized) -> kd <> Unrecognized -> amountsOf kd rs = [].
Proof.
  intros H Hkd. induction rs as [|r rs IH]; [done|].
  unfold amountsOf in *. simpl. rewrite (H r) by (by left).
  destruct kd; try done; apply IH; intros r' Hr'; apply H; by right.
Qed.

Lemma firstSeen_undated rs : (forall r, In r rs -> dateKey r = "") -> firstSeen rs = [].
Proof.
  intros H. destruct (firstSeen rs) as [|k ks] eqn:Hk; [done|].
  assert (In k (firstSeen rs)) as Hin by (rewrite Hk; by left).
  apply firstSeen_In in Hin as (Hne & r & Hr & <-).
  by rewrite H in Hne.
Qed.

(** C9.  For every list of rows [calculateTotals] returns normally: the
    only operation that could throw, reading the entry that
    [dailyMap.get(dateKey)] returns, always finds one.  When every row is
    skipped or of an unrecognized type both totals are 0, and when no
    non-skipped row has a date the daily array and the month list are empty
    (and the selected month is ['ALL']). *)
Theorem C9_calculateTotals_completes
    (language : Language) (Date_parse : string -> option JS.Date)
    (data : list Row) (fileName : string) :
  exists out,
    calculateTotals language Date_parse data fileName = JS.Normal out
    /\ ((forall r, In r (records data) -> kind r = Unrecognized) ->
        retailTotal (salesData out) = 0%float /\ clubTotal (salesData out) = 0%float)
    /\ ((forall r, In r (records data) -> dateKey r = "") ->
        dailyData (salesData out) = []
        /\ availableMonths out = []
        /\ selectedMonth out = "ALL").
Proof.
  eexists. split; [apply calculateTotals_run|]. simpl. split.
  - intros H. unfold finalState. rewrite retailTotal_fold, clubTotal_fold.
    by rewrite !amountsOf_none.
  - intros H.
    assert (dailySeries Date_parse data = []) as ->; [|done].
    apply firstSeen_undated in H. rewrite <- finalState_keys in H.
    unfold dailySeries. by destruct (Locals.dailyMap (finalState data)).
Qed.

(** Rows that are all skipped: no receipt type, no profit, not a number,
    the excluded customer. *)
Example nothing_qualifies :
  calculateTotals en Calendar.Date_parse
    [ {[ "Profit" := "$1.00" ]};
      {[ "Receipt Type" := "Retail Sale" ]};
      {[ "Receipt Type" := "Retail Sale"; "Profit" := "N/A"; "Date Created" := "01/05/2024" ]};
      shouting;
      ∅ ]
    "sales.csv"
  = JS.Normal
      {| salesData := {| retailTotal := 0; clubTotal := 0;
                         fileName := "sales.csv"; dailyData := [] |};
         availableMonths := [];
         selectedMonth := "ALL" |}.
Proof. vm_compute. reflexivity. Qed.

(** ** Locale equivalence *)

Lemma englishRow_fields t p d c :
  receiptTypeOf (englishRow t p d c) = (if JS.nonEmpty t then Some t else None)
  /\ profitStringOf (englishRow t p d c) = (if JS.nonEmpty p then Some p else None)
  /\ dateCreatedOf (englishRow t p d c) = (if JS.nonEmpty d then Some d else None)
  /\ customerNameOf (englishRow t p d c) = (if JS.nonEmpty c then Some c else None).
Proof. repeat split; reflexivity. Qed.

Lemma spanishRow_fields t p d c :
  receiptTypeOf (spanishRow t p d c) = Some t
  /\ profitStringOf (spanishRow t p d c) = Some p
  /\ dateCreatedOf (spanishRow t p d c) = Some d
  /\ customerNameOf (spanishRow t p d c) = Some c.
Proof. repeat split; reflexivity. Qed.

Lemma truthy_nonEmpty_if s :
  JS.truthy (if JS.nonEmpty s then Some s else None) = JS.nonEmpty s.
Proof. unfold JS.truthy. by destruct (JS.nonEmpty s) eqn:H. Qed.

Lemma locale_rows_normalize club p d c :
  normalize (spanishRow (spanishCategory club) p d c)
  = normalize (englishRow (englishCategory club) p d c).
Proof.
  unfold normalize.
  destruct (spanishRow_fields (spanishCategory club) p d c) as (-> & -> & -> & ->).
  destruct (englishRow_fields (englishCategory club) p d c) as (-> & -> & -> & ->).
  rewrite !truthy_nonEmpty_if. simpl JS.truthy.
  assert (isAshleyRegis (if JS.nonEmpty c then Some c else None) = isAshleyRegis (Some c))
    as ->.
  { destruct (JS.nonEmpty c) eqn:Hc; [done|]. simpl. by rewrite Hc. }
  destruct (isAshleyRegis (Some c)); [done|].
  assert (JS.nonEmpty (spanishCategory club) = true) as -> by (by destruct club).
  assert (JS.nonEmpty (englishCategory club) = true) as -> by (by destruct club).
  simpl. destruct (JS.nonEmpty p); [|done]. simpl.
  destruct (JS.isNaN (parseProfit p)); [done|].
  f_equal. f_equal; [by destruct club|].
  by destruct (JS.nonEmpty d).
Qed.

(** C5.  A row under the Spanish headers with a Spanish category value and
    the row under the English headers with the English value of the same
    category, the same profit text, date and customer name, change the
    running totals and the buckets in the same way, and a file gives the
    same result whichever of the two rows stands in it. *)
Theorem C5_spanish_row_same_as_english
    (club : bool) (profit dateCreated customerName : string) :
  (forall st,
     calculateTotals_row st (spanishRow (spanishCategory club) profit dateCreated customerName)
     = calculateTotals_row st (englishRow (englishCategory club) profit dateCreated customerName))
  /\ (forall language Date_parse pre post fileName,
        calculateTotals language Date_parse
          (pre ++ spanishRow (spanishCategory club) profit dateCreated customerName :: post)
          fileName
        = calculateTotals language Date_parse
            (pre ++ englishRow (englishCategory club) profit dateCreated customerName :: post)
            fileName).
Proof.
  split.
  - intros st. by rewrite !calculateTotals_row_normalize, locale_rows_normalize.
  - intros. apply calculateTotals_records.
    rewrite !records_app. simpl. by rewrite locale_rows_normalize.
Qed.

Example locale_example :
  calculateTotals es Calendar.Date_parse
    [ spanishRow "Venta al menudeo" "$1,250.75" "03/09/2024" "Rosa";
      spanishRow "Visita al Club / Venta" "$4.00" "03/09/2024" "Luis" ] "ventas.csv"
  = calculateTotals es Calendar.Date_parse
      [ englishRow "Retail Sale" "$1,250.75" "03/09/2024" "Rosa";
        englishRow "Club Visit/Sale" "$4.00" "03/09/2024" "Luis" ] "ventas.csv"
  /\ exists out,
       calculateTotals es Calendar.Date_parse
         [ spanishRow "Venta al menudeo" "$1,250.75" "03/09/2024" "Rosa";
           spanishRow "Visita al Club / Venta" "$4.00" "03/09/2024" "Luis" ] "ventas.csv"
       = JS.Normal out
       /\ retailTotal (salesData out) = JS.parseFloat "1250.75"
       /\ clubTotal (salesData out) = JS.parseFloat "4"
       /\ availableMonths out = ["Marzo"].
Proof.
  split; [vm_compute; reflexivity|].
  eexists. split; [vm_compute; reflexivity|].
  repeat split; vm_compute; reflexivity.
Qed.

(** ** Months and filters *)

Lemma fold_left_ext {A B} (f g : A -> B -> A) l a :
  (forall x y, f x y = g x y) -> fold_left f l a = fold_left g l a.
Proof.
  intros H. revert a. induction l as [|y l IH]; intros a; [done|].
  simpl. by rewrite H, IH.
Qed.

Lemma sumFrom_map {A} (f : A -> float) l init :
  fold_left (fun sum a => (sum + f a)%float) l init = sumFrom init (map f l).
Proof. revert init. induction l as [|a l IH]; intros init; [done|]. simpl. apply IH. Qed.

Section MonthFacts.
Variable language : Language.
Variable Date_parse : string -> option JS.Date.

Let label (d : DailyProfit) : string := getMonthFromDate language Date_parse (date d).

Lemma collectMonths_distinct dailyData :
  collectMonths language Date_parse dailyData = distinctKeysFrom label [] dailyData.
Proof.
  unfold collectMonths, distinctKeysFrom. apply fold_left_ext.
  intros monthSet day. unfold JS.Set_.add. fold (label day).
  destruct (JS.nonEmpty (label day)); [|done].
  by destruct (existsb _ _).
Qed.

Lemma getAllUniqueMonths_Permutation dailyData :
  Permutation (getAllUniqueMonths language Date_parse dailyData)
    (distinctKeysFrom label [] dailyData).
Proof.
  unfold getAllUniqueMonths. destruct dailyData as [|d dailyData]; [done|].
  cbn [length Nat.eqb]. rewrite sort_Permutation. by rewrite collectMonths_distinct.
Qed.

Lemma getAllUniqueMonths_In dailyData m :
  In m (getAllUniqueMonths language Date_parse dailyData)
  <-> m <> "" /\ exists d, In d dailyData /\ label d = m.
Proof.
  split.
  - intros H. eapply Permutation_in in H; [|apply getAllUniqueMonths_Permutation].
    apply distinctKeysFrom_In in H as [[]|H]. done.
  - intros H. eapply Permutation_in; [symmetry; apply getAllUniqueMonths_Permutation|].
    apply distinctKeysFrom_In. by right.
Qed.

Lemma getAllUniqueMonths_NoDup dailyData :
  List.NoDup (getAllUniqueMonths language Date_parse dailyData).
Proof.
  eapply Permutation_NoDup; [symmetry; apply getAllUniqueMonths_Permutation|].
  apply distinctKeysFrom_NoDup. constructor.
Qed.

Lemma getFilteredDailyData_In dailyData month day :
  In day (getFilteredDailyData language Date_parse dailyData month)
  <-> In day dailyData /\ (month = "ALL" \/ label day = month).
Proof.
  unfold getFilteredDailyData.
  destruct (String.eqb_spec month "ALL") as [->|Hne].
  - tauto.
  - rewrite filter_In. fold (label day).
    destruct (String.eqb_spec (label day) month); intuition congruence.
Qed.

End MonthFacts.

(** C10.  A date string with at least three ['/']-separated parts whose
    first part does not parse to an integer from 1 to 12 has the empty
    month label, whatever the [Date] parser would make of it.  In any daily
    array, every available month is then the month of some other date, an
    entry of that date is in no filtered array for a month (a non-empty
    label other than ['ALL']), it is in the ['ALL'] array if it is in the
    array at all, and so it is missing from the filtered arrays of all the
    available months taken together. *)
Theorem C10_unlabelled_date_only_under_ALL
    (language : Language) (Date_parse : string -> option JS.Date) (s : string) :
  (3 <= length (JS.split "/" s))%nat ->
  (forall n, JS.parseInt (hd "" (JS.split "/" s)) = Some n -> n < 1 \/ 12 < n) ->
  getMonthFromDate language Date_parse s = ""
  /\ forall dailyData day,
       date day = s ->
       (forall m, In m (getAllUniqueMonths language Date_parse dailyData) ->
          exists d, In d dailyData /\ date d <> s
                    /\ getMonthFromDate language Date_parse (date d) = m)
       /\ (forall month, month <> "ALL" -> month <> "" ->
             ~ In day (getFilteredDailyData language Date_parse dailyData month))
       /\ (In day dailyData ->
             In day (getFilteredDailyData language Date_parse dailyData "ALL"))
       /\ ~ In day (flat_map (getFilteredDailyData language Date_parse dailyData)
                      (getAllUniqueMonths language Date_parse dailyData)).
Proof.
  intros Hparts Hfirst.
  assert (getMonthFromDate language Date_parse s = "") as Hlabel.
  { unfold getMonthFromDate. destruct (JS.nonEmpty s); [|done]. simpl.
    destruct (Nat.ltb_spec (length (JS.split "/" s)) 3) as [|_]; [lia|].
    destruct (JS.parseInt (hd "" (JS.split "/" s))) as [n|]; [|done].
    cbv zeta. replace ((n - 1 <? 0) || (11 <? n - 1)) with true; [done|].
    symmetry. apply orb_true_iff.
    destruct (Hfirst n eq_refl); [left | right]; apply Z.ltb_lt; lia. }
  split; [done|]. intros dailyData day Hday.
  assert (forall month, month <> "ALL" -> month <> "" ->
            ~ In day (getFilteredDailyData language Date_parse dailyData month)) as Hout.
  { intros month HALL Hne [_ [?|Hm]]%getFilteredDailyData_In; [done|].
    rewrite Hday, Hlabel in Hm. congruence. }
  repeat split.
  - intros m (Hne & d & Hd & Hm)%getAllUniqueMonths_In.
    exists d. repeat split; [done| |done].
    intros Heq. rewrite Heq, Hlabel in Hm. congruence.
  - done.
  - intros Hin. apply getFilteredDailyData_In. tauto.
  - intros (month & Hmonth & Hin)%in_flat_map.
    apply getAllUniqueMonths_In in Hmonth as (Hne & d & Hd & Hm).
    apply (Hout month); [|done..].
    intros ->. apply getFilteredDailyData_In in Hin as [_ Hin].
    unfold getMonthFromDate in Hm.
    assert (forall i, nth i (monthNames language) "" <> "ALL") as Hnames.
    { intros i. destruct language; do 13 (destruct i as [|i]; [done|]); by destruct i. }
    destruct (JS.nonEmpty (date d)); simpl in Hm; [|done].
    destruct (length (JS.split "/" (date d)) <? 3)%nat.
    + destruct (Date_parse (date d)); [by apply Hnames in Hm | done].
    + destruct (JS.parseInt (hd "" (JS.split "/" (date d)))) as [n|]; [|done].
      cbv zeta in Hm.
      destruct ((n - 1 <? 0) || (11 <? n - 1)); [done | by apply Hnames in Hm].
Qed.

Lemma C10_unlabelled_date_witness :
  getMonthFromDate en Calendar.Date_parse "13/01/2024" = ""
  /\ getMonthFromDate en Calendar.Date_parse "2024/01/05" = ""
  /\ getAllUniqueMonths en Calendar.Date_parse [dayFirst] = []
  /\ getFilteredDailyData en Calendar.Date_parse [dayFirst] "ALL" = [dayFirst]
  /\ ~ In dayFirst
         (flat_map (getFilteredDailyData en Calendar.Date_parse [dayFirst])
            (getAllUniqueMonths en Calendar.Date_parse [dayFirst])).
Proof.
  split; [vm_compute; reflexivity|].
  split; [vm_compute; reflexivity|].
  split; [vm_compute; reflexivity|].
  split; [vm_compute; reflexivity|].
  apply (C10_unlabelled_date_only_under_ALL en Calendar.Date_parse "13/01/2024").
  - vm_compute. lia.
  - intros n [= <-]. right. vm_compute. reflexivity.
  - reflexivity.
Defined.

Section Store.
Variable language : Language.
Variable Date_parse : string -> option JS.Date.

Lemma alloc_extends a h : extends h (snd (Heap.alloc a h)).
Proof.
  intros r b Hr. unfold Heap.read, Heap.alloc in *. simpl.
  rewrite nth_error_app1; [done|]. apply nth_error_Some. congruence.
Qed.

Lemma alloc_read a h : Heap.read (fst (Heap.alloc a h)) (snd (Heap.alloc a h)) = Some a.
Proof.
  unfold Heap.read, Heap.alloc. simpl.
  rewrite nth_error_app2 by lia. by rewrite Nat.sub_diag.
Qed.

Lemma getFilteredDailyData_at_spec r month h a :
  Heap.read r h = Some a ->
  exists r' h',
    getFilteredDailyData_at language Date_parse r month h = JS.Normal (r', h')
    /\ Heap.read r' h' = Some (getFilteredDailyData language Date_parse a month)
    /\ extends h h'.
Proof.
  intros Hr. unfold getFilteredDailyData_at, getFilteredDailyData.
  destruct (String.eqb month "ALL").
  - exists r, h. split; [done|]. split; [done|]. by intros ? ? ?.
  - rewrite Hr. eexists _, _. split; [reflexivity|].
    split; [apply (alloc_read _ h) | apply (alloc_extends _ h)].
Qed.

Lemma getFilteredTotals_at_spec r month h a :
  Heap.read r h = Some a ->
  exists h',
    getFilteredTotals_at language Date_parse r month h
    = JS.Normal (getFilteredTotals language Date_parse a month, h')
    /\ extends h h'.
Proof.
  intros Hr. unfold getFilteredTotals_at.
  destruct (getFilteredDailyData_at_spec r month h a Hr) as (r' & h' & -> & Hr' & Hext).
  simpl. rewrite Hr'. by exists h'.
Qed.

Lemma renders_spec r months h a :
  Heap.read r h = Some a ->
  exists h',
    renders language Date_parse r months h
    = JS.Normal
        (map (fun month => (getFilteredTotals language Date_parse a month,
                            getFilteredDailyData language Date_parse a month)) months,
         h')
    /\ extends h h'.
Proof.
  revert h. induction months as [|month months IH]; intros h Hr.
  - exists h. split; [done|]. by intros ? ? ?.
  - simpl.
    destruct (getFilteredTotals_at_spec r month h a Hr) as (h1 & -> & H1). simpl.
    destruct (getFilteredDailyData_at_spec r month h1 a (H1 _ _ Hr))
      as (r2 & h2 & -> & Hr2 & H2). simpl. rewrite Hr2.
    destruct (IH h2 (H2 _ _ (H1 _ _ Hr))) as (h3 & -> & H3). simpl.
    exists h3. split; [done|]. intros r' b Hb. by apply H3, H2, H1.
Qed.

End Store.

(** C2.  For every daily array and every month label or ['ALL'], the
    totals of [getFilteredTotals] are the sums, from 0 and in order, of the
    [retail] and [club] fields of the entries [getFilteredDailyData]
    selects.  With the array in the heap, any sequence of renders returns
    normally with, for each month, exactly those totals and entries; every
    array of the heap, the daily array among them, reads afterwards as it
    did before. *)
Theorem C2_filtered_totals_agree_and_nothing_is_mutated
    (language : Language) (Date_parse : string -> option JS.Date)
    (h : Heap.t) (r : Heap.ref) (dailyData : list DailyProfit) (months : list string) :
  Heap.read r h = Some dailyData ->
  (forall month,
     Totals.retailTotal (getFilteredTotals language Date_parse dailyData month)
     = sumFrom 0 (map retail (getFilteredDailyData language Date_parse dailyData month))
     /\ Totals.clubTotal (getFilteredTotals language Date_parse dailyData month)
        = sumFrom 0 (map club (getFilteredDailyData language Date_parse dailyData month)))
  /\ exists h',
       renders language Date_parse r months h
       = JS.Normal
           (map (fun month => (getFilteredTotals language Date_parse dailyData month,
                               getFilteredDailyData language Date_parse dailyData month))
              months,
            h')
       /\ Heap.read r h' = Some dailyData
       /\ extends h h'.
Proof.
  intros Hr. split.
  - intros month. unfold getFilteredTotals. simpl. by rewrite !sumFrom_map.
  - destruct (renders_spec language Date_parse r months h dailyData Hr) as (h' & Hrun & Hext).
    exists h'. repeat split; [done | by apply Hext | done].
Qed.

Lemma C2_filtered_totals_witness :
  Heap.read 0%nat [twoMonths] = Some twoMonths
  /\ exists h',
       renders en Calendar.Date_parse 0%nat ["February"; "ALL"; "January"; "February"] [twoMonths]
       = JS.Normal
           ([ (Totals.mk 3 0, [ {| date := "02/01/2024"; retail := 3; club := 0; total := 3 |} ]);
              (Totals.mk 13 5.5, twoMonths);
              (Totals.mk 10 5.5,
               [ {| date := "01/05/2024"; retail := 10; club := 5.5; total := 15.5 |} ]);
              (Totals.mk 3 0, [ {| date := "02/01/2024"; retail := 3; club := 0; total := 3 |} ]) ],
            h')
       /\ Heap.read 0%nat h' = Some twoMonths.
Proof.
  split; [reflexivity|].
  destruct (C2_filtered_totals_agree_and_nothing_is_mutated en Calendar.Date_parse
              [twoMonths] 0%nat twoMonths ["February"; "ALL"; "January"; "February"] eq_refl)
    as (_ & h' & Hrun & Hread & _).
  exists h'. split; [|exact Hread].
  rewrite Hrun. vm_compute. reflexivity.
Defined.

(** ** The order of the months *)

Lemma Math_max_valid x xs :
  (forall y, In y (x :: xs) -> y <> None) ->
  exists t, JS.Math_max x xs = Some t
            /\ In (Some t) (x :: xs)
            /\ forall v, In (Some v) (x :: xs) -> v <= t.
Proof.
  revert x. induction xs as [|y ys IH]; intros x Hvalid.
  - destruct x as [a|]; [|by destruct (Hvalid None (or_introl eq_refl))].
    exists a. simpl. split; [done|]. split; [by left|].
    intros v [[= ->]|[]]. lia.
  - destruct (IH y) as (t & Ht & Hin & Hmax).
    { intros z Hz. apply Hvalid. by right. }
    destruct x as [a|]; [|by destruct (Hvalid None (or_introl eq_refl))].
    exists (Z.max a t). cbn [JS.Math_max]. rewrite Ht. split; [done|]. split.
    + destruct (Z.max_spec a t) as [[_ ->]|[_ ->]]; [by right | by left].
    + intros v [[= ->]|Hv]; [lia|]. specialize (Hmax v Hv). lia.
Qed.

Section MonthOrder.
Variable language : Language.
Variable Date_parse : string -> option JS.Date.

Local Abbreviation label d := (getMonthFromDate language Date_parse (date d)).

Lemma latestOf_valid dailyData month :
  labelledDatesValid language Date_parse dailyData ->
  In month (getAllUniqueMonths language Date_parse dailyData) ->
  exists t, latestOf language Date_parse dailyData month = Some t
            /\ isLatestOf language Date_parse dailyData month t.
Proof.
  intros Hvalid (Hne & d0 & Hd0 & Hm0)%getAllUniqueMonths_In.
  unfold latestOf.
  set (ds := List.filter _ dailyData).
  assert (forall d, In d ds <-> In d dailyData /\ label d = month) as Hds.
  { intros d. unfold ds. rewrite filter_In.
    by rewrite String.eqb_eq. }
  assert (In d0 ds) as Hd0' by (by apply Hds).
  destruct (map (fun d => timeOf Date_parse (date d)) ds) as [|x xs] eqn:Hmap.
  { destruct ds; [done | discriminate]. }
  destruct (Math_max_valid x xs) as (t & -> & Hin & Hmax).
  { intros y Hy. rewrite <- Hmap in Hy.
    apply in_map_iff in Hy as (d & <- & Hd). apply Hds in Hd as [Hd Hl].
    apply Hvalid; [done|]. congruence. }
  exists t. split; [done|]. split.
  - rewrite <- Hmap in Hin. apply in_map_iff in Hin as (d & Ht & Hd).
    apply Hds in Hd as [Hd Hl]. by exists d.
  - intros d v Hd Hl Hv. apply Hmax. rewrite <- Hmap.
    apply in_map_iff. exists d. split; [done|]. by apply Hds.
Qed.

End MonthOrder.

Section MonthOrderTheorem.
Variable language : Language.
Variable Date_parse : string -> option JS.Date.

Lemma isLatestOf_unique dailyData month t t' :
  isLatestOf language Date_parse dailyData month t ->
  isLatestOf language Date_parse dailyData month t' -> t = t'.
Proof.
  intros [(d & Hd & Hl & Ht) Hmax] [(d' & Hd' & Hl' & Ht') Hmax'].
  pose proof (Hmax d' t' Hd' Hl' Ht'). pose proof (Hmax' d t Hd Hl Ht). lia.
Qed.

Lemma months_descending dailyData i j a b ta tb :
  labelledDatesValid language Date_parse dailyData ->
  (i < j)%nat ->
  nth_error (getAllUniqueMonths language Date_parse dailyData) i = Some a ->
  nth_error (getAllUniqueMonths language Date_parse dailyData) j = Some b ->
  isLatestOf language Date_parse dailyData a ta ->
  isLatestOf language Date_parse dailyData b tb ->
  tb <= ta.
Proof.
  intros Hvalid Hij Hi Hj Ha Hb.
  set (key := fun m => - default 0 (latestOf language Date_parse dailyData m)).
  assert (forall m t, In m (getAllUniqueMonths language Date_parse dailyData) ->
            isLatestOf language Date_parse dailyData m t ->
            latestOf language Date_parse dailyData m = Some t) as Hlatest.
  { intros m t Hm Ht.
    destruct (latestOf_valid language Date_parse dailyData m Hvalid Hm) as (t' & -> & Ht').
    f_equal. by eapply isLatestOf_unique. }
  assert (getAllUniqueMonths language Date_parse dailyData
          = JS.sort (fun a b => JS.sub (latestOf language Date_parse dailyData b)
                                  (latestOf language Date_parse dailyData a))
              (collectMonths language Date_parse dailyData)) as Hsort.
  { unfold getAllUniqueMonths. by destruct dailyData. }
  assert (key a <= key b) as Hkey.
  { revert Hi Hj. rewrite Hsort.
    apply ascending_lookup with (key := key); [|done].
    apply sort_ascending. intros x y Hx Hy.
    assert (forall m, In m (collectMonths language Date_parse dailyData) ->
              exists t, latestOf language Date_parse dailyData m = Some t) as Hsome.
    { intros m Hm.
      destruct (latestOf_valid language Date_parse dailyData m Hvalid) as (t & Ht & _);
        [|by exists t].
      rewrite Hsort. by apply sort_In. }
    destruct (Hsome x Hx) as (tx & Htx), (Hsome y Hy) as (ty & Hty).
    unfold JS.SortCompare, key. rewrite Htx, Hty. simpl. lia. }
  unfold key in Hkey.
  rewrite (Hlatest a ta), (Hlatest b tb) in Hkey; try done.
  - simpl in Hkey. lia.
  - by eapply nth_error_In.
  - by eapply nth_error_In.
Qed.

End MonthOrderTheorem.

(** C6, as stated, fails on the order: ['02/xx/2024'] and ['03/xx/2024']
    are labelled February and March by their first part, but [new Date]
    cannot read them, so the latest time of these months is [NaN] and every
    comparison with them is a tie.  The months stay in first-seen order:
    January (latest 5 January 2024) first and April (latest 1 April 2024),
    the month of the latest transaction, last. *)
Lemma C6_unreadable_date_breaks_month_order :
  exists out,
    calculateTotals en Calendar.Date_parse placeholderDays "sales.csv" = JS.Normal out
    /\ map date (dailyData (salesData out))
       = ["01/05/2024"; "02/xx/2024"; "03/xx/2024"; "04/01/2024"]
    /\ availableMonths out = ["January"; "February"; "March"; "April"]
    /\ map (latestOf en Calendar.Date_parse (dailyData (salesData out))) (availableMonths out)
       = [Some 1704412800000; None; None; Some 1711929600000]
    /\ 1704412800000 < 1711929600000.
Proof.
  eexists. split; [vm_compute; reflexivity|].
  repeat split; vm_compute; reflexivity.
Qed.

(** C6 (amended).  [availableMonths] is the month list of the daily array;
    it holds each month label at most once, and exactly the non-empty labels
    of the entries.  When [new Date] can read the date of every labelled
    entry, every month has a latest time, the months are in descending
    order of it, and no labelled entry is later than the latest time of the
    first month. *)
Theorem C6_months_distinct_and_latest_first
    (language : Language) (Date_parse : string -> option JS.Date)
    (data : list Row) (fileName : string) :
  exists out,
    calculateTotals language Date_parse data fileName = JS.Normal out
    /\ availableMonths out
       = getAllUniqueMonths language Date_parse (dailyData (salesData out))
    /\ List.NoDup (availableMonths out)
    /\ (forall m, In m (availableMonths out)
                  <-> m <> ""
                      /\ exists d, In d (dailyData (salesData out))
                                   /\ getMonthFromDate language Date_parse (date d) = m)
    /\ (labelledDatesValid language Date_parse (dailyData (salesData out)) ->
        (forall m, In m (availableMonths out) ->
           exists t, isLatestOf language Date_parse (dailyData (salesData out)) m t)
        /\ (forall i j a b ta tb,
              (i < j)%nat ->
              nth_error (availableMonths out) i = Some a ->
              nth_error (availableMonths out) j = Some b ->
              isLatestOf language Date_parse (dailyData (salesData out)) a ta ->
              isLatestOf language Date_parse (dailyData (salesData out)) b tb ->
              tb <= ta)
        /\ (forall m0 t0 d v,
              nth_error (availableMonths out) 0 = Some m0 ->
              isLatestOf language Date_parse (dailyData (salesData out)) m0 t0 ->
              In d (dailyData (salesData out)) ->
              getMonthFromDate language Date_parse (date d) <> "" ->
              timeOf Date_parse (date d) = Some v ->
              v <= t0)).
Proof.
  eexists. split; [apply calculateTotals_run|].
  cbn [salesData availableMonths dailyData].
  set (dd := dailySeries Date_parse data).
  split; [done|].
  split; [apply getAllUniqueMonths_NoDup|].
  split; [apply getAllUniqueMonths_In|].
  intros Hvalid.
  assert (forall m, In m (getAllUniqueMonths language Date_parse dd) ->
            exists t, isLatestOf language Date_parse dd m t) as Hlatest.
  { intros m Hm. destruct (latestOf_valid language Date_parse dd m Hvalid Hm) as (t & _ & Ht).
    by exists t. }
  split; [done|].
  split; [intros; by eapply months_descending|].
  intros m0 t0 d v Hm0 Ht0 Hd Hl Hv.
  assert (In (getMonthFromDate language Date_parse (date d))
            (getAllUniqueMonths language Date_parse dd)) as Hm.
  { apply getAllUniqueMonths_In. split; [done|]. by exists d. }
  destruct (Hlatest _ Hm) as (t & Ht).
  assert (v <= t) as Hvt by (destruct Ht as [_ Hmax]; by eapply Hmax).
  apply In_nth_error in Hm as [j Hj].
  destruct j as [|j].
  - rewrite Hm0 in Hj. injection Hj as ->.
    by rewrite (isLatestOf_unique _ _ _ _ _ _ Ht0 Ht).
  - assert (t <= t0); [|lia].
    eapply (months_descending language Date_parse dd 0 (S j)); [done|lia|done..].
Qed.

(** The example of the specification, run. *)
Lemma exampleRows_run :
  calculateTotals en Calendar.Date_parse exampleRows "sales.csv" = JS.Normal exampleOutcome.
Proof. vm_compute. reflexivity. Qed.

Lemma twoMonths_valid : labelledDatesValid en Calendar.Date_parse twoMonths.
Proof. intros d [<-|[<-|[]]] _; vm_compute; discriminate. Qed.

Lemma twoMonths_latest :
  isLatestOf en Calendar.Date_parse twoMonths "February" 1706745600000
  /\ isLatestOf en Calendar.Date_parse twoMonths "January" 1704412800000.
Proof.
  split; split.
  - eexists. split; [right; left; reflexivity|]. split; vm_compute; reflexivity.
  - intros d v [<-|[<-|[]]] Hl Ht; vm_compute in Hl; try discriminate Hl.
    vm_compute in Ht. injection Ht as <-. lia.
  - eexists. split; [left; reflexivity|]. split; vm_compute; reflexivity.
  - intros d v [<-|[<-|[]]] Hl Ht; vm_compute in Hl; try discriminate Hl.
    vm_compute in Ht. injection Ht as <-. lia.
Qed.

(** The example of the specification: February, the month of the latest
    transaction, comes first, before January. *)
Lemma C6_months_witness :
  labelledDatesValid en Calendar.Date_parse twoMonths
  /\ exists out,
       calculateTotals en Calendar.Date_parse exampleRows "sales.csv" = JS.Normal out
       /\ availableMonths out = ["February"; "January"]
       /\ List.NoDup (availableMonths out)
       /\ forall ta tb,
            isLatestOf en Calendar.Date_parse (dailyData (salesData out)) "February" ta ->
            isLatestOf en Calendar.Date_parse (dailyData (salesData out)) "January" tb ->
            tb <= ta.
Proof.
  split; [exact twoMonths_valid|].
  destruct (C6_months_distinct_and_latest_first en Calendar.Date_parse exampleRows "sales.csv")
    as (out & Hrun & _ & Hnd & _ & Horder).
  exists out. split; [exact Hrun|].
  assert (out = exampleOutcome) as ->.
  { pose proof exampleRows_run as Hex. rewrite Hrun in Hex. by injection Hex. }
  split; [reflexivity|].
  split; [exact Hnd|].
  intros ta tb Ha Hb.
  destruct (Horder twoMonths_valid) as (_ & Hdesc & _).
  exact (Hdesc 0%nat 1%nat "February" "January" ta tb (Nat.lt_0_1) eq_refl eq_refl Ha Hb).
Defined.

(** ** The order of the daily series *)

Lemma filter_map_commute {A B} (f : A -> B) (P : B -> bool) l :
  List.filter P (map f l) = map f (List.filter (fun a => P (f a)) l).
Proof.
  induction l as [|a l IH]; simpl; [done|].
  destruct (P (f a)); simpl; by rewrite IH.
Qed.

Section SeriesOrder.
Variable Date_parse : string -> option JS.Date.

Let key (a : DailyProfit) : Z := default 0 (timeOf Date_parse (date a)).

Lemma byDate_ordersBy l :
  datesValid Date_parse l -> ordersBy (byDate Date_parse) key l.
Proof.
  intros Hvalid x y Hx Hy. unfold JS.SortCompare, byDate, key.
  destruct (timeOf Date_parse (date x)) as [tx|] eqn:Hx'; [|by apply Hvalid in Hx].
  destruct (timeOf Date_parse (date y)) as [ty|] eqn:Hy'; [|by apply Hvalid in Hy].
  simpl. lia.
Qed.

Lemma datesValid_sort l :
  datesValid Date_parse (JS.sort (byDate Date_parse) l) -> datesValid Date_parse l.
Proof. intros H day Hday. apply H. by apply sort_In. Qed.

Lemma hasTime_key l t :
  datesValid Date_parse l ->
  List.filter (fun a => hasTime Date_parse t (date a)) l = List.filter (fun a => key a =? t) l.
Proof.
  intros Hvalid. apply filter_ext_in. intros a Ha. unfold hasTime, key.
  destruct (timeOf Date_parse (date a)) eqn:Ht; [done|]. by apply Hvalid in Ha.
Qed.

Lemma dailySeries_ascending data i j a b ta tb :
  datesValid Date_parse (dailySeries Date_parse data) ->
  (i < j)%nat ->
  nth_error (dailySeries Date_parse data) i = Some a ->
  nth_error (dailySeries Date_parse data) j = Some b ->
  timeOf Date_parse (date a) = Some ta ->
  timeOf Date_parse (date b) = Some tb ->
  ta <= tb.
Proof.
  intros Hvalid Hij Hi Hj Ha Hb.
  assert (key a <= key b) as Hkey.
  { eapply (ascending_lookup key); [|exact Hij|exact Hi|exact Hj].
    apply sort_ascending, byDate_ordersBy. by apply datesValid_sort. }
  unfold key in Hkey. by rewrite Ha, Hb in Hkey.
Qed.

Lemma dailySeries_stable data t :
  datesValid Date_parse (dailySeries Date_parse data) ->
  List.filter (hasTime Date_parse t) (map date (dailySeries Date_parse data))
  = List.filter (hasTime Date_parse t) (firstSeen (records data)).
Proof.
  intros Hvalid.
  rewrite <- finalState_keys, <- map_date_toDailyProfit.
  rewrite !(filter_map_commute date). f_equal.
  rewrite !hasTime_key by (done || by apply datesValid_sort).
  apply sort_stable, byDate_ordersBy. by apply datesValid_sort.
Qed.

End SeriesOrder.

(** C7, as stated, fails on the order: [new Date] cannot read
    ['13/01/2024'] and ['14/01/2024'], the comparator returns [NaN]
    whenever one of them is compared, and the array stays in first-seen
    order, 1 February 2024 before 1 January 2024. *)
Lemma C7_unreadable_date_breaks_series_order :
  exists out,
    calculateTotals en Calendar.Date_parse dayFirstExport "sales.csv" = JS.Normal out
    /\ map date (dailyData (salesData out))
       = ["02/01/2024"; "13/01/2024"; "14/01/2024"; "01/01/2024"]
    /\ map (timeOf Calendar.Date_parse) (map date (dailyData (salesData out)))
       = [Some 1706745600000; None; None; Some 1704067200000]
    /\ 1704067200000 < 1706745600000.
Proof.
  eexists. split; [vm_compute; reflexivity|].
  repeat split; vm_compute; reflexivity.
Qed.

(** C7 (amended).  Every entry of the daily series has
    [total = retail + club], and the series has one entry for each distinct
    date key.  When [new Date] can read every date key, the series is in
    ascending order of the dates' time values, not of the strings, and
    entries whose dates have the same time value keep the order in which
    their date keys were first seen. *)
Theorem C7_series_sorted_by_date_and_totalled
    (language : Language) (Date_parse : string -> option JS.Date)
    (data : list Row) (fileName : string) :
  exists out,
    calculateTotals language Date_parse data fileName = JS.Normal out
    /\ (forall day, In day (dailyData (salesData out)) ->
          total day = (retail day + club day)%float)
    /\ Permutation (map date (dailyData (salesData out))) (firstSeen (records data))
    /\ (datesValid Date_parse (dailyData (salesData out)) ->
        (forall i j a b ta tb,
           (i < j)%nat ->
           nth_error (dailyData (salesData out)) i = Some a ->
           nth_error (dailyData (salesData out)) j = Some b ->
           timeOf Date_parse (date a) = Some ta ->
           timeOf Date_parse (date b) = Some tb ->
           ta <= tb)
        /\ (forall t,
              List.filter (hasTime Date_parse t) (map date (dailyData (salesData out)))
              = List.filter (hasTime Date_parse t) (firstSeen (records data)))).
Proof.
  eexists. split; [apply calculateTotals_run|].
  cbn [salesData dailyData].
  split; [intros day Hday; apply dailySeries_entry in Hday; tauto|].
  split; [apply dailySeries_dates|].
  intros Hvalid. split.
  - intros. by eapply dailySeries_ascending.
  - intros t. by apply dailySeries_stable.
Qed.

Lemma sameDayTwice_run :
  calculateTotals en Calendar.Date_parse sameDayTwice "sales.csv"
  = JS.Normal
      {| salesData := {| retailTotal := 4; clubTotal := 2; fileName := "sales.csv";
                         dailyData := sameDayTwiceSeries |};
         availableMonths := ["February"; "January"];
         selectedMonth := "February" |}.
Proof. vm_compute. reflexivity. Qed.

Lemma sameDayTwiceSeries_valid : datesValid Calendar.Date_parse sameDayTwiceSeries.
Proof. intros day [<-|[<-|[<-|[]]]]; vm_compute; discriminate. Qed.

(** Two spellings of 5 January 2024 and a later date seen first: the
    series is by date, and the two spellings keep their first-seen order. *)
Lemma C7_series_witness :
  datesValid Calendar.Date_parse sameDayTwiceSeries
  /\ firstSeen (records sameDayTwice) = ["02/01/2024"; "01/05/2024"; "1/5/2024"]
  /\ exists out,
       calculateTotals en Calendar.Date_parse sameDayTwice "sales.csv" = JS.Normal out
       /\ map date (dailyData (salesData out)) = ["01/05/2024"; "1/5/2024"; "02/01/2024"]
       /\ (forall t,
             List.filter (hasTime Calendar.Date_parse t) (map date (dailyData (salesData out)))
             = List.filter (hasTime Calendar.Date_parse t) (firstSeen (records sameDayTwice))).
Proof.
  split; [exact sameDayTwiceSeries_valid|].
  split; [vm_compute; reflexivity|].
  destruct (C7_series_sorted_by_date_and_totalled en Calendar.Date_parse sameDayTwice "sales.csv")
    as (out & Hrun & _ & _ & Horder).
  exists out. split; [exact Hrun|].
  pose proof sameDayTwice_run as Hex. rewrite Hrun in Hex. injection Hex as ->.
  split; [reflexivity|].
  exact (proj2 (Horder sameDayTwiceSeries_valid)).
Defined.

(** ** Further properties of the month labels and the filters *)

Lemma monthNames_not_ALL language i : nth i (monthNames language) "" <> "ALL".
Proof. destruct language; do 13 (destruct i as [|i]; [done|]); by destruct i. Qed.

Lemma monthNames_other language language' m :
  language <> language' -> In m (monthNames language) -> ~ In m (monthNames language').
Proof.
  intros Hne Hm Hm'.
  destruct language, language'; try done; simpl in Hm, Hm';
    repeat (destruct Hm as [<-|Hm]; [intuition discriminate|]); done.
Qed.

Lemma monthNames_nonEmpty language m : In m (monthNames language) -> m <> "".
Proof.
  intros Hm ->. destruct language; simpl in Hm; intuition discriminate.
Qed.

Lemma label_range language Date_parse s :
  getMonthFromDate language Date_parse s = ""
  \/ In (getMonthFromDate language Date_parse s) (monthNames language).
Proof.
  assert (forall i, nth i (monthNames language) "" = ""
                    \/ In (nth i (monthNames language) "") (monthNames language)) as Hnth.
  { intros i. destruct (nth_in_or_default i (monthNames language) ""); [by right | by left]. }
  unfold getMonthFromDate.
  destruct (JS.nonEmpty s); [|by left]. simpl.
  destruct (length (JS.split "/" s) <? 3)%nat.
  - destruct (Date_parse s); [apply Hnth | by left].
  - destruct (JS.parseInt (hd "" (JS.split "/" s))) as [n|]; [|by left].
    cbv zeta. destruct ((n - 1 <? 0) || (11 <? n - 1)); [by left | apply Hnth].
Qed.

Lemma filter_nil_iff {A} (f : A -> bool) l :
  List.filter f l = [] <-> forall x, In x l -> f x = false.
Proof.
  induction l as [|a l IH]; simpl; [by split|].
  destruct (f a) eqn:Ha.
  - split; [done|]. intros H. specialize (H a (or_introl eq_refl)). congruence.
  - rewrite IH. split.
    + intros H x [<-|Hx]; [done | by apply H].
    + intros H x Hx. apply H. by right.
Qed.

Lemma label_not_ALL language Date_parse s :
  getMonthFromDate language Date_parse s <> "ALL".
Proof.
  destruct (label_range language Date_parse s) as [->|Hin]; [done|].
  apply In_nth with (d := "") in Hin as (i & _ & <-). apply monthNames_not_ALL.
Qed.

(** X1.  The month label of a date string is empty or one of the twelve
    month names of the active language, and never ['ALL'].  A string with
    at least three ['/']-separated parts whose first part parses to an
    integer from 1 to 12 is labelled with that month's name, whatever the
    other parts are and without consulting the [Date] parser. *)
Theorem X1_month_label_is_a_month_name
    (language : Language) (Date_parse : string -> option JS.Date) (s : string) :
  (getMonthFromDate language Date_parse s = ""
   \/ In (getMonthFromDate language Date_parse s) (monthNames language))
  /\ getMonthFromDate language Date_parse s <> "ALL"
  /\ (forall n,
        (3 <= length (JS.split "/" s))%nat ->
        JS.parseInt (hd "" (JS.split "/" s)) = Some n ->
        1 <= n <= 12 ->
        getMonthFromDate language Date_parse s
        = nth (Z.to_nat (n - 1)) (monthNames language) ""
        /\ getMonthFromDate language Date_parse s <> "").
Proof.
  split; [apply label_range|]. split; [apply label_not_ALL|].
  intros n Hparts Hn Hrange.
  assert (getMonthFromDate language Date_parse s
          = nth (Z.to_nat (n - 1)) (monthNames language) "") as ->.
  { unfold getMonthFromDate.
    destruct s as [|c s]; [simpl in Hparts; lia|]. cbn [JS.nonEmpty String.eqb negb].
    destruct (Nat.ltb_spec (length (JS.split "/" (String c s))) 3) as [|_]; [lia|].
    rewrite Hn. cbv zeta.
    destruct (Z.ltb_spec (n - 1) 0); [lia|].
    destruct (Z.ltb_spec 11 (n - 1)); [lia|]. done. }
  split; [done|].
  assert (exists i, Z.to_nat (n - 1) = i /\ (i < 12)%nat) as (i & -> & Hi).
  { exists (Z.to_nat (n - 1)). split; [done | lia]. }
  destruct language; do 12 (destruct i as [|i]; [done|]); lia.
Qed.

(** X2.  Labels are produced in the active language: a month offered
    under one language selects nothing under the other one, so after a
    language toggle the month that was selected shows no entry and totals
    of 0. *)
Theorem X2_month_of_other_language_selects_nothing
    (language language' : Language) (Date_parse : string -> option JS.Date)
    (dailyData : list DailyProfit) (month : string) :
  language <> language' ->
  In month (getAllUniqueMonths language Date_parse dailyData) ->
  getFilteredDailyData language' Date_parse dailyData month = []
  /\ getFilteredTotals language' Date_parse dailyData month = Totals.mk 0 0.
Proof.
  intros Hne (Hm & d & Hd & Hl)%getAllUniqueMonths_In.
  assert (In month (monthNames language)) as Hin.
  { destruct (label_range language Date_parse (date d)) as [H|H]; congruence. }
  assert (getFilteredDailyData language' Date_parse dailyData month = []) as Hnil.
  { unfold getFilteredDailyData.
    destruct (String.eqb_spec month "ALL") as [->|_].
    - apply In_nth with (d := "") in Hin as (i & _ & Hi). by apply monthNames_not_ALL in Hi.
    - apply filter_nil_iff. intros x _. apply String.eqb_neq. intros Hx.
      destruct (label_range language' Date_parse (date x)) as [H|H].
      + congruence.
      + rewrite Hx in H. by eapply monthNames_other. }
  split; [done|]. unfold getFilteredTotals. by rewrite Hnil.
Qed.

Lemma X2_other_language_witness :
  en <> es
  /\ In "January" (getAllUniqueMonths en Calendar.Date_parse twoMonths)
  /\ getFilteredDailyData es Calendar.Date_parse twoMonths "January" = []
  /\ getFilteredTotals es Calendar.Date_parse twoMonths "January" = Totals.mk 0 0.
Proof.
  assert (In "January" (getAllUniqueMonths en Calendar.Date_parse twoMonths)) as Hin.
  { vm_compute. tauto. }
  split; [discriminate|]. split; [exact Hin|].
  apply (X2_month_of_other_language_selects_nothing en es Calendar.Date_parse
           twoMonths "January"); [discriminate | exact Hin].
Defined.

(** X3.  The available months are exactly the months that select
    something: every available month's filtered array is non-empty and
    holds only entries labelled with that month; every entry with a
    non-empty label is found under its own month, which is available; and
    no entry is found under two different months. *)
Theorem X3_months_partition_the_labelled_entries
    (language : Language) (Date_parse : string -> option JS.Date)
    (dailyData : list DailyProfit) :
  (forall month, In month (getAllUniqueMonths language Date_parse dailyData) ->
     getFilteredDailyData language Date_parse dailyData month <> [])
  /\ (forall month d, month <> "ALL" ->
        In d (getFilteredDailyData language Date_parse dailyData month) ->
        In d dailyData /\ getMonthFromDate language Date_parse (date d) = month)
  /\ (forall d, In d dailyData ->
        getMonthFromDate language Date_parse (date d) <> "" ->
        In (getMonthFromDate language Date_parse (date d))
          (getAllUniqueMonths language Date_parse dailyData)
        /\ In d (getFilteredDailyData language Date_parse dailyData
                   (getMonthFromDate language Date_parse (date d))))
  /\ (forall month month' d,
        In month (getAllUniqueMonths language Date_parse dailyData) ->
        In month' (getAllUniqueMonths language Date_parse dailyData) ->
        In d (getFilteredDailyData language Date_parse dailyData month) ->
        In d (getFilteredDailyData language Date_parse dailyData month') ->
        month = month').
Proof.
  assert (forall month, In month (getAllUniqueMonths language Date_parse dailyData) ->
            month <> "ALL") as HALL.
  { intros month (_ & d & _ & <-)%getAllUniqueMonths_In. apply label_not_ALL. }
  repeat split.
  - intros month Hmonth Hnil.
    apply getAllUniqueMonths_In in Hmonth as (_ & d & Hd & Hl).
    assert (In d (getFilteredDailyData language Date_parse dailyData month)) as Hin.
    { apply getFilteredDailyData_In. tauto. }
    by rewrite Hnil in Hin.
  - by apply getFilteredDailyData_In in H0 as [? _].
  - apply getFilteredDailyData_In in H0 as [_ [?|?]]; done.
  - apply getAllUniqueMonths_In. split; [done|]. by exists d.
  - apply getFilteredDailyData_In. tauto.
  - intros month month' d Hm Hm' Hd Hd'.
    apply getFilteredDailyData_In in Hd as [_ [?|Hd]]; [by apply HALL in Hm|].
    apply getFilteredDailyData_In in Hd' as [_ [?|Hd']]; [by apply HALL in Hm'|].
    congruence.
Qed.

(** ** Rows and buckets *)

Lemma dailyMap_fold_same rs st st' :
  Locals.dailyMap st = Locals.dailyMap st' ->
  Locals.dailyMap (fold_left accumulate rs st) = Locals.dailyMap (fold_left accumulate rs st').
Proof.
  revert st st'. induction rs as [|r rs IH]; intros st st' H; [done|].
  simpl. apply IH. simpl. by rewrite H.
Qed.

Lemma dailyMap_undated_record rs1 r rs2 st :
  dateKey r = "" ->
  Locals.dailyMap (fold_left accumulate (rs1 ++ r :: rs2) st)
  = Locals.dailyMap (fold_left accumulate (rs1 ++ rs2) st).
Proof.
  intros Hr. rewrite !fold_left_app. simpl. apply dailyMap_fold_same.
  simpl. by rewrite Hr.
Qed.

(** X4.  A row that is counted but has no date changes nothing of what
    the component shows: the daily array, the available months and the
    selected month are those of the file without the row, and so are the
    filtered totals for every month and for ['ALL'].  Only the running
    totals of [salesData], which the component does not display, count it. *)
Theorem X4_undated_row_never_shown
    (language : Language) (Date_parse : string -> option JS.Date)
    (pre post : list Row) (row : Row) (r : TransactionRecord) (fileName : string) :
  normalize row = Some r ->
  dateKey r = "" ->
  exists out out',
    calculateTotals language Date_parse (pre ++ row :: post) fileName = JS.Normal out
    /\ calculateTotals language Date_parse (pre ++ post) fileName = JS.Normal out'
    /\ dailyData (salesData out) = dailyData (salesData out')
    /\ availableMonths out = availableMonths out'
    /\ selectedMonth out = selectedMonth out'
    /\ forall month,
         getFilteredTotals language Date_parse (dailyData (salesData out)) month
         = getFilteredTotals language Date_parse (dailyData (salesData out')) month.
Proof.
  intros Hrow Hdate. eexists _, _.
  split; [apply calculateTotals_run|]. split; [apply calculateTotals_run|].
  cbn [salesData dailyData availableMonths selectedMonth].
  assert (dailySeries Date_parse (pre ++ row :: post) = dailySeries Date_parse (pre ++ post))
    as ->; [|done].
  unfold dailySeries, finalState. rewrite !records_app. simpl. rewrite Hrow.
  by rewrite dailyMap_undated_record.
Qed.

Lemma X4_undated_row_witness :
  normalize undatedSale
  = Some {| kind := Retail; amount := 5; dateKey := "" |}
  /\ exists out out',
       calculateTotals en Calendar.Date_parse (exampleRows ++ undatedSale :: []) "sales.csv"
       = JS.Normal out
       /\ calculateTotals en Calendar.Date_parse (exampleRows ++ []) "sales.csv" = JS.Normal out'
       /\ retailTotal (salesData out) = 18%float
       /\ retailTotal (salesData out') = 13%float
       /\ dailyData (salesData out) = dailyData (salesData out')
       /\ getFilteredTotals en Calendar.Date_parse (dailyData (salesData out)) "ALL"
          = getFilteredTotals en Calendar.Date_parse (dailyData (salesData out')) "ALL".
Proof.
  assert (normalize undatedSale = Some {| kind := Retail; amount := 5; dateKey := "" |})
    as Hrow by (vm_compute; reflexivity).
  split; [exact Hrow|].
  destruct (X4_undated_row_never_shown en Calendar.Date_parse exampleRows [] undatedSale _
              "sales.csv" Hrow eq_refl)
    as (out & out' & Hrun & Hrun' & Hdaily & _ & _ & Htotals).
  exists out, out'. split; [exact Hrun|]. split; [exact Hrun'|].
  assert (JS.Normal out = JS.Normal
            {| salesData := {| retailTotal := 18; clubTotal := 5.5; fileName := "sales.csv";
                               dailyData := twoMonths |};
               availableMonths := ["February"; "January"];
               selectedMonth := "February" |}) as [= ->].
  { rewrite <- Hrun. vm_compute. reflexivity. }
  assert (JS.Normal out' = JS.Normal exampleOutcome) as [= ->].
  { rewrite <- Hrun'. vm_compute. reflexivity. }
  repeat split.
Defined.

Lemma normalize_dateKey row r :
  normalize row = Some r -> JS.nonEmpty (dateKey r) = true ->
  dateCreatedOf row = Some (dateKey r).
Proof.
  unfold normalize. destruct (isAshleyRegis _); [done|].
  destruct (_ && _); [|done]. destruct (JS.isNaN _); [done|].
  intros [= <-]. simpl. destruct (dateCreatedOf row) as [d|]; simpl; [|done].
  by destruct (JS.nonEmpty d).
Qed.

Local Ltac no_new_key :=
  exists []; rewrite app_nil_r; simpl; repeat split; [lia | intros ? []].

(** X5.  One row changes at most one bucket and removes none: after the
    row callback the keys of [dailyMap] are the keys before, in the same
    order, followed by at most one new key, and the bucket of every date
    other than the row's own resolved date is what it was. *)
Theorem X5_row_touches_only_its_own_bucket (st : Locals.t) (row : Row) :
  exists st',
    calculateTotals_row st row = JS.Normal st'
    /\ (exists new,
          map fst (Locals.dailyMap st') = map fst (Locals.dailyMap st) ++ new
          /\ (length new <= 1)%nat
          /\ forall k, In k new -> dateCreatedOf row = Some k)
    /\ forall k,
         dateCreatedOf row <> Some k ->
         JS.Map.get k (Locals.dailyMap st') = JS.Map.get k (Locals.dailyMap st).
Proof.
  eexists. split; [apply calculateTotals_row_normalize|].
  destruct (normalize row) as [r|] eqn:Hrow.
  2:{ split; [no_new_key|done]. }
  unfold accumulate. cbn [Locals.dailyMap].
  destruct (JS.nonEmpty (dateKey r)) eqn:Hd.
  2:{ split; [no_new_key|done]. }
  pose proof (normalize_dateKey row r Hrow Hd) as Hkey. split.
  - rewrite keys_upsert. destruct (existsb _ _).
    + no_new_key.
    + exists [dateKey r]. simpl. repeat split; [lia|]. by intros k [<-|[]].
  - intros k Hk. rewrite get_upsert.
    destruct (String.eqb_spec (dateKey r) k) as [<-|]; [congruence | done].
Qed.

(** ** The columns a row is read through *)

Lemma row_by_fields st r1 r2 :
  receiptTypeOf r1 = receiptTypeOf r2 ->
  profitStringOf r1 = profitStringOf r2 ->
  dateCreatedOf r1 = dateCreatedOf r2 ->
  customerNameOf r1 = customerNameOf r2 ->
  calculateTotals_row st r1 = calculateTotals_row st r2.
Proof.
  intros H1 H2 H3 H4. rewrite !calculateTotals_row_normalize.
  unfold normalize. by rewrite H1, H2, H3, H4.
Qed.

Lemma orElse_shadow a b b' : JS.truthy a = true -> JS.orElse a b = JS.orElse a b'.
Proof. unfold JS.orElse. by intros ->. Qed.

(** X6.  The row callback reads a row through the eight recognised
    headers only: two rows that agree on them are treated alike, whatever
    their other columns.  Under each pair of headers the English one has
    priority: where its value is non-empty, the value under the Spanish
    header is never looked at. *)
Theorem X6_only_recognised_headers_english_first (st : Locals.t) :
  (forall r1 r2 : Row,
     (forall en_header es_header, In (en_header, es_header) headerPairs ->
        r1 !! en_header = r2 !! en_header /\ r1 !! es_header = r2 !! es_header) ->
     calculateTotals_row st r1 = calculateTotals_row st r2)
  /\ (forall (row : Row) en_header es_header v,
        In (en_header, es_header) headerPairs ->
        JS.truthy (row !! en_header) = true ->
        calculateTotals_row st (<[es_header := v]> row) = calculateTotals_row st row).
Proof.
  split.
  - intros r1 r2 H. unfold headerPairs in H.
    apply row_by_fields;
      unfold receiptTypeOf, profitStringOf, dateCreatedOf, customerNameOf.
    + destruct (H "Receipt Type" "Tipo de Recibo") as [-> ->]; simpl; tauto.
    + destruct (H "Profit" "Ganancia") as [-> ->]; simpl; tauto.
    + destruct (H "Date Created" "Fecha de creación") as [-> ->]; simpl; tauto.
    + destruct (H "Customer Name" "Nombre del Cliente") as [-> ->]; simpl; tauto.
  - intros row en_header es_header v Hpair Htruthy.
    unfold headerPairs in Hpair. simpl in Hpair.
    destruct Hpair as [[= <- <-]|[[= <- <-]|[[= <- <-]|[[= <- <-]|[]]]]];
      apply row_by_fields;
      unfold receiptTypeOf, profitStringOf, dateCreatedOf, customerNameOf;
      rewrite ?lookup_insert_ne by done;
      try reflexivity;
      by apply orElse_shadow.
Qed.

(** ** The month selector *)

Lemma available_month_selects language Date_parse dailyData month :
  In month (getAllUniqueMonths language Date_parse dailyData) ->
  getFilteredDailyData language Date_parse dailyData month <> [].
Proof.
  intros (_ & d & Hd & Hl)%getAllUniqueMonths_In Hnil.
  assert (In d (getFilteredDailyData language Date_parse dailyData month)) as Hin.
  { apply getFilteredDailyData_In. tauto. }
  by rewrite Hnil in Hin.
Qed.

Lemma click_selectable months s c :
  selectable months s -> selectable months (Selector.click s c).
Proof.
  intros [Hm Hs]. unfold selectable, Selector.click. destruct c as [|i].
  - rewrite Hm. destruct months as [|m [|m' months]]; simpl; [done..|].
    split; [done | by left].
  - destruct (nth_error (Selector.availableMonths s) i) as [month|] eqn:Hi; [|done].
    rewrite Hm in Hi |- *. apply nth_error_In in Hi.
    destruct months as [|m [|m' months]]; simpl; [done..|].
    split; [done | by right].
Qed.

Lemma clicks_selectable months clicks s :
  selectable months s -> selectable months (fold_left Selector.click clicks s).
Proof.
  revert s. induction clicks as [|c clicks IH]; intros s Hs; [done|].
  simpl. by apply IH, click_selectable.
Qed.

(** X7.  Whatever buttons of the month selector are clicked after a file
    has been read, the list of months stays the one [calculateTotals] set;
    the selection is ['ALL'] when the file has no month, stays the only
    month when it has one, and is otherwise ['ALL'] or one of its months;
    and as long as the file gave any daily entry, the selection shows at
    least one under the language the file was read in. *)
Theorem X7_selection_stays_meaningful
    (language : Language) (Date_parse : string -> option JS.Date)
    (data : list Row) (fileName : string) (out : Outcome) (clicks : list Selector.Click) :
  calculateTotals language Date_parse data fileName = JS.Normal out ->
  let s := fold_left Selector.click clicks
             (Selector.mk (availableMonths out) (selectedMonth out)) in
  Selector.availableMonths s = availableMonths out
  /\ (availableMonths out = [] -> Selector.selectedMonth s = "ALL")
  /\ (forall m, availableMonths out = [m] -> Selector.selectedMonth s = m)
  /\ (Selector.selectedMonth s = "ALL"
      \/ In (Selector.selectedMonth s) (availableMonths out))
  /\ (dailyData (salesData out) <> [] ->
      getFilteredDailyData language Date_parse (dailyData (salesData out))
        (Selector.selectedMonth s) <> []).
Proof.
  rewrite calculateTotals_run. intros [= <-].
  cbn [availableMonths selectedMonth salesData dailyData].
  set (dd := dailySeries Date_parse data).
  set (months := getAllUniqueMonths language Date_parse dd).
  set (s := fold_left Selector.click clicks _).
  assert (selectable months s) as [Hm Hs].
  { apply clicks_selectable. split; [done|]. simpl.
    unfold defaultMonth. destruct months as [|m [|m' ms]]; simpl; auto. }
  assert (Selector.selectedMonth s = "ALL" \/ In (Selector.selectedMonth s) months) as Hsel.
  { destruct months as [|m [|m' ms]]; [by left | right; by left | done]. }
  split; [done|]. split; [by intros ->|]. split; [by intros m ->|]. split; [done|].
  intros Hdd. destruct Hsel as [->|Hin]; [done|].
  by apply available_month_selects.
Qed.

Lemma X7_selection_witness :
  calculateTotals en Calendar.Date_parse exampleRows "sales.csv" = JS.Normal exampleOutcome
  /\ Selector.selectedMonth
       (fold_left Selector.click [Selector.Month 1; Selector.All; Selector.Month 5]
          (Selector.mk (availableMonths exampleOutcome) (selectedMonth exampleOutcome)))
     = "ALL"
  /\ getFilteredDailyData en Calendar.Date_parse (dailyData (salesData exampleOutcome)) "ALL"
     <> [].
Proof.
  assert (calculateTotals en Calendar.Date_parse exampleRows "sales.csv"
          = JS.Normal exampleOutcome) as Hrun by (vm_compute; reflexivity).
  split; [exact Hrun|]. split; [reflexivity|].
  refine (proj2 (proj2 (proj2 (proj2
    (X7_selection_stays_meaningful en Calendar.Date_parse exampleRows "sales.csv"
       exampleOutcome [Selector.Month 1; Selector.All; Selector.Month 5] Hrun)))) _).
  discriminate.
Defined.

(** ** The order of what is shown *)

Lemma filter_ascending {A} (key : A -> Z) (f : A -> bool) l :
  ascending key l -> ascending key (List.filter f l).
Proof.
  unfold ascending. induction 1 as [|a l Hl IH Ha]; simpl; [constructor|].
  destruct (f a); [|done]. constructor; [done|].
  rewrite List.Forall_forall in Ha |- *. intros x [Hx _]%filter_In. by apply Ha.
Qed.

Lemma getFilteredDailyData_ascending language Date_parse key dailyData month :
  ascending key dailyData ->
  ascending key (getFilteredDailyData language Date_parse dailyData month).
Proof.
  intros H. unfold getFilteredDailyData. destruct (String.eqb month "ALL"); [done|].
  by apply filter_ascending.
Qed.

Lemma getFilteredDailyData_sublist language Date_parse dailyData month :
  sublist (getFilteredDailyData language Date_parse dailyData month) dailyData.
Proof.
  unfold getFilteredDailyData. destruct (String.eqb month "ALL"); [done|].
  induction dailyData as [|d dailyData IH]; simpl; [done|].
  destruct (String.eqb _ month); by constructor.
Qed.

(** X8.  What the chart and the table show under any selection is a
    subsequence of the daily series: the entries keep their order and none
    is altered or repeated.  So when [new Date] can read every date, what
    is shown is in ascending order of date under every selected month. *)
Theorem X8_shown_entries_keep_the_date_order
    (language : Language) (Date_parse : string -> option JS.Date)
    (data : list Row) (fileName : string) (month : string) :
  exists out,
    calculateTotals language Date_parse data fileName = JS.Normal out
    /\ sublist (getFilteredDailyData language Date_parse (dailyData (salesData out)) month)
         (dailyData (salesData out))
    /\ (datesValid Date_parse (dailyData (salesData out)) ->
        forall i j a b ta tb,
          (i < j)%nat ->
          nth_error (getFilteredDailyData language Date_parse (dailyData (salesData out)) month) i
          = Some a ->
          nth_error (getFilteredDailyData language Date_parse (dailyData (salesData out)) month) j
          = Some b ->
          timeOf Date_parse (date a) = Some ta ->
          timeOf Date_parse (date b) = Some tb ->
          ta <= tb).
Proof.
  eexists. split; [apply calculateTotals_run|]. cbn [salesData dailyData].
  split; [apply getFilteredDailyData_sublist|].
  intros Hvalid i j a b ta tb Hij Hi Hj Ha Hb.
  set (key := fun d : DailyProfit => default 0 (timeOf Date_parse (date d))).
  assert (key a <= key b) as Hkey.
  { eapply (ascending_lookup key); [|exact Hij|exact Hi|exact Hj].
    apply getFilteredDailyData_ascending.
    apply sort_ascending, byDate_ordersBy. by apply datesValid_sort. }
  unfold key in Hkey. by rewrite Ha, Hb in Hkey.
Qed.

(** ** File intake *)

Lemma split_nonempty sep s : JS.split sep s <> [].
Proof.
  destruct s as [|c s]; simpl; [done|].
  destruct (Ascii.eqb c sep); [done|]. by destruct (JS.split sep s).
Qed.

Lemma split_noDot ext : noDot ext = true -> JS.split "." ext = [ext].
Proof.
  induction ext as [|c ext IH]; simpl; [done|].
  intros [Hc Hext]%andb_prop. apply negb_true_iff in Hc. rewrite Hc.
  by rewrite IH.
Qed.

Lemma last_cons_nonempty {A} (x : A) l d : l <> [] -> List.last (x :: l) d = List.last l d.
Proof. by destruct l. Qed.

Lemma split_last_dot base ext :
  (2 <= length (JS.split "." (String.append base (String "." ext))))%nat
  /\ List.last (JS.split "." (String.append base (String "." ext))) ""
     = List.last (JS.split "." ext) "".
Proof.
  induction base as [|c base [IHlen IH]].
  - change (String.append "" (String "." ext)) with (String "." ext).
    cbn [JS.split]. rewrite Ascii.eqb_refl.
    pose proof (split_nonempty "." ext). split.
    + destruct (JS.split "." ext); simpl; [done | lia].
    + by apply last_cons_nonempty.
  - change (String.append (String c base) (String "." ext))
      with (String c (String.append base (String "." ext))).
    cbn [JS.split].
    destruct (Ascii.eqb c ".").
    + split; [simpl; lia|].
      rewrite last_cons_nonempty; [done | apply split_nonempty].
    + destruct (JS.split "." (String.append base (String "." ext))) as [|p [|q ps]];
        simpl in IHlen; [lia..|].
      split; [simpl; lia | done].
Qed.

Lemma fileExtension_dot base ext :
  noDot ext = true ->
  fileExtension (String.append base (String "." ext)) = JS.toLowerCase ext.
Proof.
  intros Hext. unfold fileExtension.
  rewrite (proj2 (split_last_dot base ext)), split_noDot by done. done.
Qed.

(** X9.  The kind of a file depends on its name only through what
    follows the last dot, compared without regard to case: two names whose
    last parts are equal up to case are taken alike for the same MIME
    type.  A name without a dot is its own extension, so a file called
    [CSV] is read as CSV. *)
Theorem X9_file_kind_reads_the_last_extension
    (base base' ext ext' type : string) :
  noDot ext = true ->
  noDot ext' = true ->
  JS.toLowerCase ext = JS.toLowerCase ext' ->
  fileExtension (String.append base (String "." ext)) = JS.toLowerCase ext
  /\ fileKind (File.mk (String.append base (String "." ext)) type)
     = fileKind (File.mk (String.append base' (String "." ext')) type)
  /\ fileExtension ext = JS.toLowerCase ext
  /\ fileKind (File.mk ext type) = fileKind (File.mk (String.append base (String "." ext)) type).
Proof.
  intros Hext Hext' Hlower.
  assert (fileExtension ext = JS.toLowerCase ext) as Hbare.
  { unfold fileExtension. by rewrite split_noDot. }
  split; [by apply fileExtension_dot|].
  unfold fileKind, isCsv, isExcel. cbn [File.name File.type].
  rewrite !fileExtension_dot, Hbare, Hlower by done. done.
Qed.

Lemma X9_file_kind_witness :
  fileKind (File.mk "export.2024.CSV" "") = fileKind (File.mk "a.csv" "")
  /\ fileKind (File.mk "a.csv" "") = Csv
  /\ fileKind (File.mk "CSV" "") = Csv.
Proof.
  destruct (X9_file_kind_reads_the_last_extension "export.2024" "a" "CSV" "csv" ""
              eq_refl eq_refl eq_refl) as (_ & Hsame & _ & Hbare).
  split; [exact Hsame|]. split; [reflexivity|].
  rewrite Hbare. reflexivity.
Defined.

(** X10.  The current version accepts every file the earlier one did:
    a name the earlier version took for CSV is still CSV, and one it took
    for Excel is still Excel unless its MIME type is [text/csv], which now
    comes first.  Where the earlier version refused a file, the current one
    refuses it too when the MIME type is none of the three it knows. *)
Theorem X10_file_kind_extends_the_earlier_version (file : File.t) :
  (V1.fileKind file = Csv -> fileKind file = Csv)
  /\ (V1.fileKind file = Excel ->
      if String.eqb (File.type file) "text/csv"
      then fileKind file = Csv else fileKind file = Excel)
  /\ (V1.fileKind file = Unsupported ->
      fileKind file =
        if String.eqb (File.type file) "text/csv" then Csv
        else if String.eqb (File.type file)
                  "application/vnd.openxmlformats-officedocument.spreadsheetml.sheet"
                || String.eqb (File.type file) "application/vnd.ms-excel" then Excel
        else Unsupported).
Proof.
  unfold V1.fileKind, fileKind, isCsv, isExcel.
  destruct (String.eqb (fileExtension (File.name file)) "csv") eqn:Hcsv.
  - repeat split; done.
  - destruct (String.eqb (fileExtension (File.name file)) "xlsx");
      destruct (String.eqb (fileExtension (File.name file)) "xls");
      destruct (String.eqb (File.type file) "text/csv");
      simpl; repeat split; done.
Qed.

Lemma error_messages_nonempty language message :
  String.append (Translations.errorCsv (translations language)) (String.append ": " message) <> ""
  /\ Translations.errorExcel (translations language) <> ""
  /\ Translations.errorFileType (translations language) <> "".
Proof. by destruct language. Qed.

(** X11.  Once the decoder has called back, [processFile] leaves the
    component with either results or an error message, never both and
    never neither, and nothing of the previous file: with results, the
    file's name, the months of its own daily series and their default
    selection; with an error, no data, no month and the selection ['ALL'].
    An unsupported file gives the file-type message of the active language
    without a decoder being consulted.  The language, the tab, the chart
    lines, the copy marker and the drag state are not touched. *)
Theorem X11_processFile_gives_results_or_an_error
    (Date_parse : string -> option JS.Date) (Papa_parse XLSX_read : File.t -> Decoded)
    (file : File.t) (st : App.t) :
  let st' := processFile Date_parse Papa_parse XLSX_read file st in
  (App.language st' = App.language st
   /\ App.activeTab st' = App.activeTab st
   /\ App.lineOpacity st' = App.lineOpacity st
   /\ App.copiedField st' = App.copiedField st
   /\ App.isDragging st' = App.isDragging st)
  /\ ((App.error st' = ""
       /\ exists sd,
            App.salesData st' = Some sd
            /\ fileName sd = File.name file
            /\ App.availableMonths st'
               = getAllUniqueMonths (App.language st) Date_parse (dailyData sd)
            /\ App.selectedMonth st' = defaultMonth (App.availableMonths st'))
      \/ (App.error st' <> ""
          /\ App.salesData st' = None
          /\ App.availableMonths st' = []
          /\ App.selectedMonth st' = "ALL"))
  /\ (fileKind file = Unsupported ->
      forall Papa_parse' XLSX_read',
        processFile Date_parse Papa_parse' XLSX_read' file st = st'
        /\ App.error st' = Translations.errorFileType (translations (App.language st))).
Proof.
  destruct (error_messages_nonempty (App.language st) "") as (_ & Hexcel & Htype).
  unfold processFile, fileKind. cbv zeta.
  destruct (isCsv file); [|destruct (isExcel file)].
  - destruct (Papa_parse file) as [data|message].
    + rewrite calculateTotals_run. simpl. repeat split; try done.
      left. split; [done|]. eexists. by repeat split.
    + simpl. repeat split; try done.
      right. repeat split.
      apply (error_messages_nonempty (App.language st) message).
  - destruct (XLSX_read file) as [data|message].
    + rewrite calculateTotals_run. simpl. repeat split; try done.
      left. split; [done|]. eexists. by repeat split.
    + simpl. repeat split; try done. right. by repeat split.
  - simpl. repeat split; try done. right. by repeat split.
Qed.

(** ** The language preference *)

(** X12.  The language preference survives a reload: after
    [toggleLanguage] the language is the other one, the effect run on
    mount adopts it whatever the language was, and every other storage
    key is untouched; toggling twice gives back the language.  A saved
    value other than ['en'] and ['es'], or none, leaves the language as it
    is. *)
Theorem X12_language_preference_round_trip
    (language : Language) (localStorage : gmap string string) :
  let '(newLanguage, localStorage') := toggleLanguage language localStorage in
  newLanguage <> language
  /\ (forall current, loadLanguage current localStorage' = newLanguage)
  /\ (forall key, key <> "preferredLanguage" -> localStorage' !! key = localStorage !! key)
  /\ fst (toggleLanguage newLanguage localStorage') = language
  /\ (forall current,
        loadLanguage current (snd (toggleLanguage newLanguage localStorage')) = language)
  /\ (forall current,
        match localStorage !! "preferredLanguage" with
        | Some saved => saved <> "en" /\ saved <> "es"
        | None => True
        end ->
        loadLanguage current localStorage = current).
Proof.
  unfold toggleLanguage, loadLanguage. cbn [fst snd].
  split; [by destruct language|].
  split; [intros current; rewrite lookup_insert_eq; by destruct language|].
  split; [intros key Hkey; by rewrite lookup_insert_ne|].
  split; [by destruct language|].
  split; [intros current; rewrite lookup_insert_eq; by destruct language|].
  intros current. destruct (localStorage !! "preferredLanguage") as [saved|]; [|done].
  intros [Hen Hes].
  apply String.eqb_neq in Hen, Hes. rewrite Hen, Hes. simpl. by rewrite andb_false_r.
Qed.

(** ** The lines of the chart *)

Lemma toggleLine_other line line' prev :
  Line_eqb line line' = false ->
  LineOpacity.get line (toggleLine line' prev) = LineOpacity.get line prev.
Proof. by destruct line, line', prev. Qed.

Lemma toggleLine_same line prev :
  LineOpacity.get line (toggleLine line prev)
  = if PrimFloat.eqb (LineOpacity.get line prev) highlighted then dimmed else highlighted.
Proof. by destruct line, prev. Qed.

Lemma Line_eqb_eq a b : Line_eqb a b = true <-> a = b.
Proof. by destruct a, b. Qed.

Lemma toggles_opacity line lines prev :
  LineOpacity.get line prev = dimmed \/ LineOpacity.get line prev = highlighted ->
  LineOpacity.get line (fold_left (fun o l => toggleLine l o) lines prev)
  = if xorb (Nat.odd (clicksOn line lines))
         (PrimFloat.eqb (LineOpacity.get line prev) highlighted)
    then highlighted else dimmed.
Proof.
  revert prev. induction lines as [|l lines IH]; intros prev Hprev.
  - simpl. by destruct Hprev as [-> | ->].
  - cbn [fold_left]. unfold clicksOn in *. cbn [List.filter].
    destruct (Line_eqb line l) eqn:Hl.
    + apply Line_eqb_eq in Hl as <-. rewrite IH.
      * rewrite toggleLine_same. cbn [length]. rewrite Nat.odd_succ, <- Nat.negb_odd.
        destruct Hprev as [-> | ->]; by destruct (Nat.odd _).
      * rewrite toggleLine_same. destruct (PrimFloat.eqb _ _); auto.
    + rewrite IH; rewrite toggleLine_other by done; done.
Qed.

(** X13.  After any sequence of clicks on the legend, each line of the
    chart has opacity 0.2 or 1.0, and which of the two depends only on how
    often that line itself was clicked: the total line, drawn at 1.0 at the
    start, is at 1.0 after an even number of its clicks, and the retail and
    club lines, drawn at 0.2, after an odd number.  Clicks on the other
    lines never count. *)
Theorem X13_line_opacity_counts_its_own_clicks (lines : list Line.t) (line : Line.t) :
  LineOpacity.get line
    (fold_left (fun o l => toggleLine l o) lines (App.lineOpacity App.initial))
  = if xorb (Nat.odd (clicksOn line lines))
         (match line with Line.total => true | _ => false end)
    then highlighted else dimmed.
Proof.
  rewrite toggles_opacity; [by destruct line|].
  destruct line; simpl; auto.
Qed.

(** ** The earlier version *)

Lemma orElse_english a b :
  JS.truthy a || negb (JS.truthy b) = true ->
  JS.truthy (JS.orElse a b) = JS.truthy a
  /\ (JS.truthy a = true -> JS.orElse a b = a).
Proof.
  unfold JS.orElse. destruct (JS.truthy a) eqn:Ha; simpl; [done|].
  intros Hb%negb_true_iff. by rewrite Hb.
Qed.

Lemma V1_row_normalize (st : Locals.t) (row : Row) :
  readAlikeByV1 row = true ->
  V1.calculateTotals_row (Locals.retailTotal st, Locals.clubTotal st) row
  = match normalize row with
    | Some r => (Locals.retailTotal (accumulate st r), Locals.clubTotal (accumulate st r))
    | None => (Locals.retailTotal st, Locals.clubTotal st)
    end.
Proof.
  unfold readAlikeByV1. rewrite !andb_true_iff, !negb_true_iff.
  intros ((((Hname & Htype) & Hprofit) & Hretail) & Hclub).
  apply orElse_english in Htype as [Ht Ht'], Hprofit as [Hp Hp'].
  unfold normalize, V1.calculateTotals_row. rewrite Hname.
  unfold receiptTypeOf, profitStringOf. rewrite Ht, Hp.
  destruct (row !! "Receipt Type") as [typeString|]; [|done].
  destruct (row !! "Profit") as [profitString|]; [|by rewrite andb_false_r].
  change (JS.truthy (Some typeString)) with (JS.nonEmpty typeString) in *.
  change (JS.truthy (Some profitString)) with (JS.nonEmpty profitString) in *.
  destruct (JS.nonEmpty typeString); [|done].
  destruct (JS.nonEmpty profitString); [|done].
  rewrite Ht', Hp' by done. cbn [andb].
  change (default "" (Some typeString)) with typeString in *.
  change (default "" (Some profitString)) with profitString.
  destruct (JS.isNaN (parseProfit profitString)); [done|]. cbn [negb].
  unfold accumulate, classify, isRetailSale, isClubVisit. cbn [kind amount].
  rewrite Hretail, Hclub, !orb_false_r. cbn [fst snd].
  destruct (String.eqb typeString "Retail Sale"); [done|].
  by destruct (String.eqb typeString "Club Visit/Sale").
Qed.

Lemma V1_rows (data : list Row) (st : Locals.t) :
  forallb readAlikeByV1 data = true ->
  fold_left V1.calculateTotals_row data (Locals.retailTotal st, Locals.clubTotal st)
  = (Locals.retailTotal (fold_left accumulate (records data) st),
     Locals.clubTotal (fold_left accumulate (records data) st)).
Proof.
  revert st. induction data as [|row data IH]; intros st; [done|].
  cbn [forallb fold_left records]. intros [Hrow Hdata]%andb_prop.
  rewrite V1_row_normalize by done.
  destruct (normalize row) as [r|]; [|by apply IH].
  cbn [fold_left]. by apply IH.
Qed.

(** X14.  On a file where no row is of the excluded customer, no value
    comes from a Spanish header and no receipt type is a Spanish category,
    the current [calculateTotals] gives exactly the retail total, the club
    total and the file name that the earlier version gave: the daily
    grouping that was added does not change them. *)
Theorem X14_totals_agree_with_the_earlier_version
    (language : Language) (Date_parse : string -> option JS.Date)
    (data : list Row) (name : string) :
  forallb readAlikeByV1 data = true ->
  exists out,
    calculateTotals language Date_parse data name = JS.Normal out
    /\ retailTotal (salesData out) = V1.retailTotal (V1.calculateTotals data name)
    /\ clubTotal (salesData out) = V1.clubTotal (V1.calculateTotals data name)
    /\ fileName (salesData out) = V1.fileName (V1.calculateTotals data name).
Proof.
  intros Hdata. eexists. split; [apply calculateTotals_run|].
  cbn [salesData retailTotal clubTotal fileName].
  unfold V1.calculateTotals. cbn [V1.retailTotal V1.clubTotal V1.fileName].
  change (0%float, 0%float)
    with (Locals.retailTotal (Locals.mk 0 0 []), Locals.clubTotal (Locals.mk 0 0 [])).
  rewrite V1_rows by done. by unfold finalState.
Qed.

Lemma X14_earlier_version_witness :
  forallb readAlikeByV1 exampleRows = true
  /\ V1.calculateTotals exampleRows "sales.csv"
     = {| V1.retailTotal := 13; V1.clubTotal := 5.5; V1.fileName := "sales.csv" |}
  /\ exists out,
       calculateTotals en Calendar.Date_parse exampleRows "sales.csv" = JS.Normal out
       /\ retailTotal (salesData out) = V1.retailTotal (V1.calculateTotals exampleRows "sales.csv")
       /\ clubTotal (salesData out) = V1.clubTotal (V1.calculateTotals exampleRows "sales.csv")
       /\ fileName (salesData out) = V1.fileName (V1.calculateTotals exampleRows "sales.csv").
Proof.
  split; [vm_compute; reflexivity|]. split; [vm_compute; reflexivity|].
  apply (X14_totals_agree_with_the_earlier_version en Calendar.Date_parse exampleRows "sales.csv").
  vm_compute. reflexivity.
Defined.

(** ** How many months there can be *)

Lemma split_app_sep sep a b :
  JS.split sep (String.append a (String sep b)) = JS.split sep a ++ JS.split sep b.
Proof.
  induction a as [|c a IH].
  - change (String.append "" (String sep b)) with (String sep b).
    cbn [JS.split]. by rewrite Ascii.eqb_refl.
  - change (String.append (String c a) (String sep b))
      with (String c (String.append a (String sep b))).
    cbn [JS.split]. rewrite IH.
    destruct (Ascii.eqb c sep); [done|].
    pose proof (split_nonempty sep a). by destruct (JS.split sep a).
Qed.

Lemma month_label_by_first_parts language Date_parse month day year year' :
  getMonthFromDate language Date_parse
    (String.append month (String "/" (String.append day (String "/" year))))
  = getMonthFromDate language Date_parse
      (String.append month (String "/" (String.append day (String "/" year')))).
Proof.
  unfold getMonthFromDate. rewrite !split_app_sep.
  assert (forall rest, JS.nonEmpty (String.append month (String "/" rest)) = true) as ->
    by by destruct month.
  assert (forall rest, JS.nonEmpty (String.append month (String "/" rest)) = true) as ->
    by by destruct month.
  cbn [negb].
  pose proof (split_nonempty "/" month). pose proof (split_nonempty "/" day).
  pose proof (split_nonempty "/" year). pose proof (split_nonempty "/" year').
  destruct (JS.split "/" month) as [|m ms]; [done|].
  destruct (JS.split "/" day) as [|d ds]; [done|].
  destruct (JS.split "/" year) as [|y ys]; [done|].
  destruct (JS.split "/" year') as [|y' ys']; [done|].
  cbn [hd app]. repeat rewrite ?length_cons, ?length_app.
  destruct (Nat.ltb_spec (S (length ms + S (length ds + S (length ys)))) 3); [lia|].
  destruct (Nat.ltb_spec (S (length ms + S (length ds + S (length ys')))) 3); [lia|].
  done.
Qed.

(** X15.  The month labels carry no year: the available months are
    distinct names among the twelve of the active language, so the
    selector never offers more than twelve months however many years the
    file spans, and two dates that differ in the year only are shown under
    the same month. *)
Theorem X15_at_most_twelve_months
    (language : Language) (Date_parse : string -> option JS.Date)
    (dailyData : list DailyProfit) :
  (length (getAllUniqueMonths language Date_parse dailyData) <= 12)%nat
  /\ (forall month, In month (getAllUniqueMonths language Date_parse dailyData) ->
        In month (monthNames language))
  /\ (forall month day year year',
        getMonthFromDate language Date_parse
          (String.append month (String "/" (String.append day (String "/" year))))
        = getMonthFromDate language Date_parse
            (String.append month (String "/" (String.append day (String "/" year'))))).
Proof.
  assert (forall month, In month (getAllUniqueMonths language Date_parse dailyData) ->
            In month (monthNames language)) as Hincl.
  { intros month (Hne & d & _ & Hl)%getAllUniqueMonths_In.
    destruct (label_range language Date_parse (date d)) as [H|H]; congruence. }
  split; [|split; [exact Hincl|]].
  - replace 12%nat with (length (monthNames language)) by by destruct language.
    apply NoDup_incl_length; [apply getAllUniqueMonths_NoDup | exact Hincl].
  - intros month day year year'. apply month_label_by_first_parts.
Qed.

(** ** Month labels across the two languages *)

Lemma translateMonth_nth language language' i :
  translateMonth language language' (nth i (monthNames language) "")
  = nth i (monthNames language') "".
Proof.
  destruct language, language'; do 12 (destruct i as [|i]; [reflexivity|]); by destruct i.
Qed.

Lemma label_nth language Date_parse s :
  exists i, getMonthFromDate language Date_parse s = nth i (monthNames language) "".
Proof.
  destruct (label_range language Date_parse s) as [->|Hin].
  - exists 12%nat. by destruct language.
  - apply In_nth with (d := "") in Hin as (i & _ & Hi). by exists i.
Qed.

Lemma translateMonth_label language language' Date_parse s :
  getMonthFromDate language' Date_parse s
  = translateMonth language language' (getMonthFromDate language Date_parse s).
Proof.
  assert (translateMonth language language' "" = "") as Hempty by by destruct language, language'.
  unfold getMonthFromDate.
  destruct (negb (JS.nonEmpty s)); [done|].
  destruct (length (JS.split "/" s) <? 3)%nat.
  - destruct (Date_parse s); [by rewrite translateMonth_nth | done].
  - destruct (JS.parseInt (hd "" (JS.split "/" s))) as [n|]; [|done]. cbv zeta.
    destruct ((n - 1 <? 0) || (11 <? n - 1)); [done | by rewrite translateMonth_nth].
Qed.

Lemma translateMonth_eqb language language' a b :
  (exists i, a = nth i (monthNames language) "") ->
  (exists j, b = nth j (monthNames language) "") ->
  String.eqb (translateMonth language language' a) (translateMonth language language' b)
  = String.eqb a b.
Proof.
  intros [i ->] [j ->].
  destruct (String.eqb_spec (nth i (monthNames language) "") (nth j (monthNames language) ""))
    as [->|Hne]; [apply String.eqb_refl|].
  apply String.eqb_neq. intros Heq. apply Hne.
  apply (f_equal (translateMonth language' language)) in Heq.
  by rewrite !translateMonth_nth in Heq.
Qed.

Lemma translateMonth_nonEmpty language language' a :
  (exists i, a = nth i (monthNames language) "") ->
  JS.nonEmpty (translateMonth language language' a) = JS.nonEmpty a.
Proof.
  intros Ha. unfold JS.nonEmpty. f_equal.
  replace "" with (translateMonth language language' "") at 1 by by destruct language, language'.
  apply translateMonth_eqb; [done|]. exists 12%nat. by destruct language.
Qed.

Lemma insertSorted_map {A B} (f : A -> B) cmp cmp' x l :
  (forall y, In y l -> cmp' (f x) (f y) = cmp x y) ->
  JS.insertSorted cmp' (f x) (map f l) = map f (JS.insertSorted cmp x l).
Proof.
  induction l as [|y l IH]; intros H; [done|].
  simpl. unfold JS.SortCompare. rewrite (H y) by by left.
  destruct (_ <=? 0); [done|]. simpl. rewrite IH; [done|].
  intros z Hz. apply H. by right.
Qed.

Lemma sort_map {A B} (f : A -> B) cmp cmp' l :
  (forall x y, In x l -> In y l -> cmp' (f x) (f y) = cmp x y) ->
  JS.sort cmp' (map f l) = map f (JS.sort cmp l).
Proof.
  induction l as [|x l IH]; intros H; [done|].
  cbn [map]. rewrite !sort_cons, IH.
  - apply insertSorted_map. intros y Hy. apply (proj1 (sort_In _ _ _)) in Hy.
    apply H; [by left | by right].
  - intros a b Ha Hb. apply H; by right.
Qed.

Section Translation.
Variable language language' : Language.
Variable Date_parse : string -> option JS.Date.

Local Abbreviation tr := (translateMonth language language').
Local Abbreviation isLabel m := (exists i, m = nth i (monthNames language) "").

Lemma filter_translated dailyData month :
  isLabel month ->
  List.filter (fun day => String.eqb (getMonthFromDate language' Date_parse (date day)) (tr month))
    dailyData
  = List.filter (fun day => String.eqb (getMonthFromDate language Date_parse (date day)) month)
      dailyData.
Proof.
  intros Hmonth. apply filter_ext. intros day.
  rewrite (translateMonth_label language language').
  apply translateMonth_eqb; [apply label_nth | done].
Qed.

Lemma latestOf_translated dailyData month :
  isLabel month ->
  latestOf language' Date_parse dailyData (tr month)
  = latestOf language Date_parse dailyData month.
Proof. intros Hmonth. unfold latestOf. by rewrite filter_translated. Qed.

Lemma collect_translated dailyData keys :
  Forall (fun k => isLabel k) keys ->
  fold_left
    (fun monthSet day =>
       let month := getMonthFromDate language' Date_parse (date day) in
       if JS.nonEmpty month then JS.Set_.add month monthSet else monthSet)
    dailyData (map tr keys)
  = map tr
      (fold_left
         (fun monthSet day =>
            let month := getMonthFromDate language Date_parse (date day) in
            if JS.nonEmpty month then JS.Set_.add month monthSet else monthSet)
         dailyData keys)
  /\ Forall (fun k => isLabel k)
       (fold_left
          (fun monthSet day =>
             let month := getMonthFromDate language Date_parse (date day) in
             if JS.nonEmpty month then JS.Set_.add month monthSet else monthSet)
          dailyData keys).
Proof.
  revert keys. induction dailyData as [|day dailyData IH]; intros keys Hkeys; [done|].
  cbn [fold_left]. cbv zeta.
  pose proof (label_nth language Date_parse (date day)) as Hlabel.
  rewrite (translateMonth_label language language'), translateMonth_nonEmpty by done.
  destruct (JS.nonEmpty (getMonthFromDate language Date_parse (date day))); [|by apply IH].
  unfold JS.Set_.add.
  assert (existsb (String.eqb (tr (getMonthFromDate language Date_parse (date day))))
            (map tr keys)
          = existsb (String.eqb (getMonthFromDate language Date_parse (date day))) keys) as ->.
  { clear IH. induction Hkeys as [|k keys Hk Hkeys IHk]; [done|].
    cbn [map existsb]. by rewrite IHk, translateMonth_eqb. }
  destruct (existsb _ keys); [by apply IH|].
  replace (map tr keys ++ [tr (getMonthFromDate language Date_parse (date day))])
    with (map tr (keys ++ [getMonthFromDate language Date_parse (date day)]))
    by by rewrite map_app.
  apply IH. apply Forall_app. split; [done | by constructor].
Qed.

Lemma getAllUniqueMonths_translated dailyData :
  getAllUniqueMonths language' Date_parse dailyData
  = map tr (getAllUniqueMonths language Date_parse dailyData).
Proof.
  unfold getAllUniqueMonths. destruct (length dailyData =? 0)%nat; [done|].
  unfold collectMonths.
  destruct (collect_translated dailyData []) as [Hcollect Hlabels]; [constructor|].
  cbn [map] in Hcollect. rewrite Hcollect.
  apply sort_map. intros a b Ha Hb.
  rewrite List.Forall_forall in Hlabels.
  by rewrite !latestOf_translated by by apply Hlabels.
Qed.

End Translation.

(** X16.  The two languages label the same dates with the same months:
    the label of a date under one language is the translation of its label
    under the other, the available months under one language are the
    translations of those under the other in the same order, and a
    translated month selects exactly the entries, and so the totals, that
    the month selects under the other language. *)
Theorem X16_languages_offer_the_same_months
    (language language' : Language) (Date_parse : string -> option JS.Date)
    (dailyData : list DailyProfit) :
  (forall s,
     getMonthFromDate language' Date_parse s
     = translateMonth language language' (getMonthFromDate language Date_parse s))
  /\ getAllUniqueMonths language' Date_parse dailyData
     = map (translateMonth language language') (getAllUniqueMonths language Date_parse dailyData)
  /\ (forall month,
        In month (getAllUniqueMonths language Date_parse dailyData) ->
        getFilteredDailyData language' Date_parse dailyData
          (translateMonth language language' month)
        = getFilteredDailyData language Date_parse dailyData month
        /\ getFilteredTotals language' Date_parse dailyData
             (translateMonth language language' month)
           = getFilteredTotals language Date_parse dailyData month).
Proof.
  split; [intros s; apply translateMonth_label|].
  split; [apply getAllUniqueMonths_translated|].
  intros month Hmonth.
  assert (getFilteredDailyData language' Date_parse dailyData
            (translateMonth language language' month)
          = getFilteredDailyData language Date_parse dailyData month) as Hsame.
  { apply getAllUniqueMonths_In in Hmonth as (_ & d & _ & <-).
    destruct (label_nth language Date_parse (date d)) as [i Hi].
    assert (translateMonth language language' (getMonthFromDate language Date_parse (date d))
            <> "ALL") as Hall'.
    { rewrite Hi, translateMonth_nth. apply monthNames_not_ALL. }
    pose proof (label_not_ALL language Date_parse (date d)) as Hall.
    unfold getFilteredDailyData.
    apply String.eqb_neq in Hall, Hall'. rewrite Hall, Hall'.
    apply filter_translated. by exists i. }
  split; [done|]. unfold getFilteredTotals. by rewrite Hsame.
Qed.
